(** * Calendar automation: free-time calculator and study-session allocator

    A shallow embedding of [main.py]: [get_events], [get_free_time],
    [add_event] and [schedule_study_sessions], with the part of Python's
    [datetime] arithmetic those functions rely on.

    Conventions.
    - A Python [datetime] is its proleptic ordinal day ([toordinal()]) and
      its clock fields.  Dates are unbounded integers: the [OverflowError]
      of year 9999 is outside the model.
    - An aware datetime carries the fixed UTC offset of its [tzinfo]
      (pytz attaches one fixed-offset instance per localized value; neither
      [replace] nor [+ timedelta] changes it).
    - [parser.isoparse] and the zone database behind [tz.localize] are
      library code: they are parameters of the development.
    - Exceptions are values of [exn]; a computation that may raise returns
      [result]. *)

From Stdlib Require Import ZArith List String Bool Lia FunInd Recdef.
From Stdlib Require Import Permutation Sorted.
Import ListNotations.

Open Scope Z_scope.

(* ------------------------------------------------------------------ *)
(** ** Python [datetime] *)

Module Datetime.

(** Clock reading without zone: [toordinal()], hour, minute, second,
    microsecond. *)
Record datetime : Set := mkDatetime
  { ordinal : Z; hour : Z; minute : Z; second : Z; microsecond : Z }.

(** A [timedelta], as its total number of microseconds. *)
Definition timedelta := Z.

Definition US_PER_SECOND : Z := 1000000.
Definition US_PER_MINUTE : Z := 60 * US_PER_SECOND.
Definition US_PER_HOUR : Z := 60 * US_PER_MINUTE.
Definition US_PER_DAY : Z := 24 * US_PER_HOUR.

Definition timedelta_minutes (m : Z) : timedelta := m * US_PER_MINUTE.
Definition timedelta_days (d : Z) : timedelta := d * US_PER_DAY.

(** Microseconds of wall-clock time since ordinal 0, midnight. *)
Definition wall (d : datetime) : Z :=
  ordinal d * US_PER_DAY + hour d * US_PER_HOUR + minute d * US_PER_MINUTE
  + second d * US_PER_SECOND + microsecond d.

(** Inverse of [wall]: the [divmod] cascade of [datetime.__add__]. *)
Definition of_wall (t : Z) : datetime :=
  {| ordinal := t / US_PER_DAY;
     hour := (t mod US_PER_DAY) / US_PER_HOUR;
     minute := (t mod US_PER_HOUR) / US_PER_MINUTE;
     second := (t mod US_PER_MINUTE) / US_PER_SECOND;
     microsecond := t mod US_PER_SECOND |}.

(** [d + td] on the wall clock. *)
Definition add_naive (d : datetime) (td : timedelta) : datetime :=
  of_wall (wall d + td).

(** [d.replace(hour=h, minute=m)] *)
Definition replace_hm (d : datetime) (h m : Z) : datetime :=
  {| ordinal := ordinal d; hour := h; minute := m;
     second := second d; microsecond := microsecond d |}.

(** [d.replace(hour=h, minute=m, second=s, microsecond=u)] *)
Definition replace_hmsu (d : datetime) (h m s u : Z) : datetime :=
  {| ordinal := ordinal d; hour := h; minute := m;
     second := s; microsecond := u |}.

(** An aware datetime: wall-clock fields and the UTC offset, in seconds,
    of its [tzinfo]. *)
Record aware : Set := mkAware { local : datetime; utcoffset : Z }.

(** The instant an aware datetime denotes, in microseconds. *)
Definition instant (a : aware) : Z :=
  wall (local a) - utcoffset a * US_PER_SECOND.

(** [a < b] and [a <= b] on aware datetimes. *)
Definition ltb (a b : aware) : bool := instant a <? instant b.
Definition leb (a b : aware) : bool := instant a <=? instant b.

(** [a + td]: wall-clock arithmetic, same [tzinfo]. *)
Definition add (a : aware) (td : timedelta) : aware :=
  {| local := add_naive (local a) td; utcoffset := utcoffset a |}.

(** [a.replace(hour=h, minute=m)]: same date, same [tzinfo]. *)
Definition replace (a : aware) (h m : Z) : aware :=
  {| local := replace_hm (local a) h m; utcoffset := utcoffset a |}.

Definition replace4 (a : aware) (h m s u : Z) : aware :=
  {| local := replace_hmsu (local a) h m s u; utcoffset := utcoffset a |}.

(** [a.weekday()]: Monday is 0; ordinal 1 is a Monday. *)
Definition weekday (a : aware) : Z := (ordinal (local a) + 6) mod 7.

(** What [isoparse] returns: clock fields and, when the text carries a
    zone designator, its offset. *)
Record parsed : Set := mkParsed { fields : datetime; tzinfo : option Z }.

End Datetime.

Import Datetime.

(* ------------------------------------------------------------------ *)
(** ** Exceptions *)

Inductive exn : Set :=
| ValueError
| IndexError.

Definition result (A : Type) : Type := (exn + A)%type.

Definition ret {A} (a : A) : result A := inr a.
Definition raise {A} (e : exn) : result A := inl e.
Definition bind {A B} (m : result A) (k : A -> result B) : result B :=
  match m with
  | inl e => inl e
  | inr a => k a
  end.

Notation "x <- m ;; k" := (bind m (fun x => k))
  (at level 61, m at next level, right associativity).

(* ------------------------------------------------------------------ *)
(** ** Calendar events *)

(** The mapping under the [start] and the [end] key of an event:
    [dateTime] for timed events, [date] for all-day events.  The code reads
    both with [dict.get]: [None] is an absent key. *)
Record EventDateTime : Set := mkEventDateTime
  { dateTime : option string; date : option string }.

(** A fetched event.  The code reads the two mappings with [event["start"]]
    and [event["end"]], as fields every event has. *)
Record Event : Set := mkEvent
  { start : EventDateTime; end_ : EventDateTime }.

(** Python truth value of the result of [dict.get] on a string field. *)
Definition truthy (v : option string) : bool :=
  match v with
  | Some (String _ _) => true
  | Some EmptyString => false
  | None => false
  end.

(** [a or b] *)
Definition py_or (a b : option string) : option string :=
  if truthy a then a else b.

(** A free slot: the pair [(slot[0], slot[1])]. *)
Definition slot : Set := (aware * aware)%type.

(** ** Constants of [main.py] *)

Definition SESSION_DURATION : timedelta := timedelta_minutes 90.
Definition DATA_MANAGEMENT_DURATION : timedelta := timedelta_minutes 60.

Definition SUBJECTS : list (string * Z) :=
  [ ("Physics"%string, 11);
    ("Calculus and Vectors"%string, 7);
    ("English"%string, 8);
    ("Data Management"%string, 7) ].

(** [l[i]] for a Python list, negative indices included. *)
Definition getitem {A} (l : list A) (i : Z) : result A :=
  let n := Z.of_nat (List.length l) in
  let j := if i <? 0 then i + n else i in
  if (j <? 0) || (n <=? j) then raise IndexError
  else match nth_error l (Z.to_nat j) with
       | Some a => ret a
       | None => raise IndexError
       end.

(* ------------------------------------------------------------------ *)
(** ** The free-time calculator *)

Section Main.

(** [parser.isoparse]; [None] stands for its [ValueError]. *)
Variable isoparse : string -> option parsed.

(** The offset (seconds) [pytz.timezone(TIMEZONE).localize] gives a
    wall-clock time. *)
Variable tz_utcoffset : datetime -> Z.

(** [if d.tzinfo is None: d = tz.localize(d)] *)
Definition localize_if_naive (p : parsed) : aware :=
  match tzinfo p with
  | Some off => {| local := fields p; utcoffset := off |}
  | None => {| local := fields p; utcoffset := tz_utcoffset (fields p) |}
  end.

(** [parser.isoparse(text)] *)
Definition parse (text : string) : result parsed :=
  match isoparse text with
  | Some p => ret p
  | None => raise ValueError
  end.

(** [d.get("dateTime") or d.get("date")] of lines 83-84. *)
Definition stamp (d : EventDateTime) : option string :=
  py_or (dateTime d) (date d).

(** [if not start or not end] of line 86. *)
Definition skipped (event : Event) : bool :=
  negb (truthy (stamp (start event))) || negb (truthy (stamp (end_ event))).

(** Lines 83-95 of [get_free_time], for one event: [inr None] is the
    [continue]; [inr (Some (start, end))] are the two aware datetimes. *)
Definition busy_interval (event : Event) : result (option (aware * aware)) :=
  let start := stamp (start event) in
  let end' := stamp (end_ event) in
  if skipped event then ret None
  else
    match start, end' with
    | Some start, Some end' =>
      start <- parse start ;;
      end' <- parse end' ;;
      ret (Some (localize_if_naive start, localize_if_naive end'))
    | _, _ => ret None (* not reached: a value that is not skipped is a string *)
    end.

(** The test of line 97: [slot[0] < end and start < slot[1]]. *)
Definition overlaps (s : slot) (start_ end' : aware) : bool :=
  ltb (fst s) end' && ltb start_ (snd s).

(** The loop [for event in events] of lines 81-97, on [daily_slots]. *)
Fixpoint blackout (events : list Event) (daily_slots : list slot)
  : result (list slot) :=
  match events with
  | [] => ret daily_slots
  | event :: rest =>
    b <- busy_interval event ;;
    match b with
    | None => blackout rest daily_slots
    | Some (s, e) =>
      blackout rest
        (filter (fun sl => negb (overlaps sl s e)) daily_slots)
    end
  end.

Definition morning_slots (today : aware) : list slot :=
  [ (replace today 4 30, replace today 8 0) ].

Definition afternoon_slots (today : aware) : list slot :=
  [ (replace today 15 45, replace today 21 30) ].

(** The loop [for _ in range(7)], with its two variables [today] and
    [free_slots]; [n] iterations remain. *)
Fixpoint days_loop (events : list Event) (n : nat) (today : aware)
         (free_slots : list (list slot)) : result (list (list slot)) :=
  match n with
  | O => ret free_slots
  | S n' =>
    let daily_slots := morning_slots today ++ afternoon_slots today in
    daily_slots' <- blackout events daily_slots ;;
    days_loop events n' (add today (timedelta_days 1))
              (free_slots ++ [daily_slots'])
  end.

(** The value of [today] when iteration [i] of the loop begins. *)
Fixpoint today_at (now : aware) (i : nat) : aware :=
  match i with
  | O => replace4 now 4 35 0 0
  | S i' => add (today_at now i') (timedelta_days 1)
  end.

(** [get_free_time(events)]; [now] is [datetime.datetime.now(tz)]. *)
Definition get_free_time (now : aware) (events : list Event)
  : result (list (list slot)) :=
  let today := replace4 now 4 35 0 0 in
  days_loop events 7 today [].


(* ------------------------------------------------------------------ *)
(** ** The calendar service *)

(** What [service.events().list(...).execute()] does: raise [HttpError],
    or return a mapping whose [items] key may be absent. *)
Inductive list_reply : Set :=
| ListHttpError
| ListResult (items : option (list Event)).

(** [get_events(service)] *)
Definition get_events (reply : list_reply) : list Event :=
  match reply with
  | ListResult (Some items) => items
  | ListResult None => []
  | ListHttpError => []
  end.

(** The arguments of one call of [add_event]. *)
Record SessionRequest : Set := mkSessionRequest
  { start_time : aware; end_time : aware; subject : string; color_id : Z }.

(** Effects of the allocator: the calls of [add_event] made so far, in
    order, and possibly an exception.  The calls made before an exception
    stay made. *)
Definition Sched (A : Type) : Type :=
  list SessionRequest -> result A * list SessionRequest.

Definition sret {A} (a : A) : Sched A := fun tr => (inr a, tr).

Definition sbind {A B} (m : Sched A) (k : A -> Sched B) : Sched B :=
  fun tr =>
    match m tr with
    | (inl e, tr') => (inl e, tr')
    | (inr a, tr') => k a tr'
    end.

Definition lift {A} (r : result A) : Sched A := fun tr => (r, tr).

Notation "x <~ m ;; k" := (sbind m (fun x => k))
  (at level 61, m at next level, right associativity).
Notation "' p <~ m ;; k" := (sbind m (fun x => let 'p := x in k))
  (at level 61, p pattern, m at next level, right associativity).

(** [add_event(service, start_time, end_time, subject, color_id)]: the
    insertion is requested; an [HttpError] of the service is caught inside
    and changes nothing for the caller. *)
Definition add_event (start_time end_time : aware) (subject : string)
           (color_id : Z) : Sched unit :=
  fun tr => (inr tt, tr ++ [mkSessionRequest start_time end_time subject color_id]).

(* ------------------------------------------------------------------ *)
(** ** The session allocator *)

(** The [while] loop of lines 133-138 and of lines 158-163:
    [while session_start + SESSION_DURATION <= end_time and subject_index < 2].
    The loop variable [subject_index] bounds the number of iterations. *)
Function fill_sessions (session_start end_time : aware) (subject_index : Z)
         (tr : list SessionRequest)
         {measure (fun i => Z.to_nat (2 - i)) subject_index}
  : result unit * list SessionRequest :=
  if leb (add session_start SESSION_DURATION) end_time && (subject_index <? 2)
  then
    let session_end := add session_start SESSION_DURATION in
    match getitem SUBJECTS subject_index with
    | inl e => (inl e, tr)
    | inr (subject, color_id) =>
      match add_event session_start session_end subject color_id tr with
      | (inl e, tr') => (inl e, tr')
      | (inr _, tr') =>
        fill_sessions session_end end_time (subject_index + 1) tr'
      end
    end
  else (inr tt, tr).
Proof.
  intros. apply andb_prop in teq. destruct teq as [_ H].
  apply Z.ltb_lt in H. lia.
Defined.

Arguments fill_sessions : simpl never.

(** Lines 130-138: the body of the first loop over the day's slots. *)
Definition morning_fill (start_time end_time : aware) : Sched unit :=
  if (hour (local start_time) =? 4) && (minute (local start_time) =? 30)
  then
    let session_start := start_time in
    let subject_index := 0 in
    fill_sessions session_start end_time subject_index
  else sret tt.

(** First pass over the day's slots, lines 129-138. *)
Fixpoint morning_pass (slots : list slot) : Sched unit :=
  match slots with
  | [] => sret tt
  | (start_time, end_time) :: rest =>
    _ <~ morning_fill start_time end_time ;;
    morning_pass rest
  end.

(** [for subject_index in subjects_order] of lines 144-149; the result is
    the final value of [start_time]. *)
Fixpoint standard_sessions (subjects_order : list Z)
         (start_time end_time : aware) : Sched aware :=
  match subjects_order with
  | [] => sret start_time
  | subject_index :: rest =>
    if leb (add start_time SESSION_DURATION) end_time
    then
      let session_end := add start_time SESSION_DURATION in
      '(subject, color_id) <~ lift (getitem SUBJECTS subject_index) ;;
      _ <~ add_event start_time session_end subject color_id ;;
      standard_sessions rest session_end end_time
    else standard_sessions rest start_time end_time
  end.

(** Lines 143-154: the branch of the days that are not Thursday or
    Friday. *)
Definition standard_afternoon (start_time end_time : aware) : Sched unit :=
  let subjects_order := [0; 1; 2] in
  start_time <~ standard_sessions subjects_order start_time end_time ;;
  if leb (add start_time DATA_MANAGEMENT_DURATION) end_time
  then
    let session_end := add start_time DATA_MANAGEMENT_DURATION in
    '(subject, color_id) <~ lift (getitem SUBJECTS 3) ;;
    add_event start_time session_end subject color_id
  else sret tt.

(** Lines 156-163: the branch of Thursday and Friday. *)
Definition compressed_afternoon (start_time end_time : aware) : Sched unit :=
  let physics_start := replace start_time 16 45 in
  fill_sessions physics_start end_time 0.

(** [today.weekday() not in [3, 4]] *)
Definition standard_day (today : aware) : bool :=
  negb ((weekday today =? 3) || (weekday today =? 4)).

(** Lines 141-163: the body of the second loop over the day's slots. *)
Definition afternoon_fill (today start_time end_time : aware) : Sched unit :=
  if (hour (local start_time) =? 15) && (minute (local start_time) =? 45)
  then
    if standard_day today
    then standard_afternoon start_time end_time
    else compressed_afternoon start_time end_time
  else sret tt.

(** Second pass over the day's slots, lines 140-163. *)
Fixpoint afternoon_pass (today : aware) (slots : list slot) : Sched unit :=
  match slots with
  | [] => sret tt
  | (start_time, end_time) :: rest =>
    _ <~ afternoon_fill today start_time end_time ;;
    afternoon_pass today rest
  end.

(** The body of [for day_index in range(7)], lines 125-163.  [clock i] is
    what [datetime.datetime.now(...)] returns in iteration [i]. *)
Definition schedule_day (free_slots : list (list slot)) (clock : Z -> aware)
           (day_index : Z) : Sched unit :=
  slots <~ lift (getitem free_slots day_index) ;;
  let today := add (clock day_index) (timedelta_days day_index) in
  _ <~ morning_pass slots ;;
  afternoon_pass today slots.

Fixpoint for_days (free_slots : list (list slot)) (clock : Z -> aware)
         (range : list Z) : Sched unit :=
  match range with
  | [] => sret tt
  | day_index :: rest =>
    _ <~ schedule_day free_slots clock day_index ;;
    for_days free_slots clock rest
  end.

(** [schedule_study_sessions(service)]: [reply] is the service's answer to
    the listing, [now] the clock read by [get_free_time], [clock] the
    clock reads of the day loop. *)
Definition schedule_study_sessions (reply : list_reply) (now : aware)
           (clock : Z -> aware) : Sched unit :=
  let events := get_events reply in
  free_slots <~ lift (get_free_time now events) ;;
  for_days free_slots clock [0; 1; 2; 3; 4; 5; 6].

(** The calls of [add_event] of a whole run. *)
Definition emitted (reply : list_reply) (now : aware) (clock : Z -> aware)
  : list SessionRequest :=
  snd (schedule_study_sessions reply now clock []).

(* ------------------------------------------------------------------ *)
(** ** Specification vocabulary *)

(** A datetime whose clock fields are in range. *)
Definition valid (d : datetime) : Prop :=
  0 <= hour d < 24 /\ 0 <= minute d < 60 /\ 0 <= second d < 60
  /\ 0 <= microsecond d < 1000000.

(** The clock time [h:m:00] of the day [i] days after [now], in the zone
    instance of [now]. *)
Definition at_day (now : aware) (i : Z) (h m : Z) : aware :=
  {| local := {| ordinal := ordinal (local now) + i; hour := h; minute := m;
                 second := 0; microsecond := 0 |};
     utcoffset := utcoffset now |}.

(** The two configured windows of the day [i] days after [now]. *)
Definition morning_window (now : aware) (i : Z) : slot :=
  (at_day now i 4 30, at_day now i 8 0).

Definition afternoon_window (now : aware) (i : Z) : slot :=
  (at_day now i 15 45, at_day now i 21 30).

(** The first exception the loop over [events] raises, if any. *)
Fixpoint first_error (events : list Event) : option exn :=
  match events with
  | [] => None
  | event :: rest =>
    match busy_interval event with
    | inl e => Some e
    | inr _ => first_error rest
    end
  end.

(** [event] is read as a busy interval that blacks out [sl]. *)
Definition hits (sl : slot) (event : Event) : bool :=
  match busy_interval event with
  | inr (Some (s, e)) => overlaps sl s e
  | _ => false
  end.

(** No event of the list blacks out [sl]. *)
Definition free_of (events : list Event) (sl : slot) : bool :=
  forallb (fun event => negb (hits sl event)) events.

(** Every timestamp the calculator reads from [event] is accepted by
    [isoparse]. *)
Definition timestamps_parse (event : Event) : Prop :=
  forall s e, skipped event = false ->
    stamp (start event) = Some s -> stamp (end_ event) = Some e ->
    isoparse s <> None /\ isoparse e <> None.

(** [inner] lies within [outer], as intervals of instants. *)
Definition within (inner outer : slot) : Prop :=
  instant (fst outer) <= instant (fst inner)
  /\ instant (snd inner) <= instant (snd outer).

(** The session [r] lies within the slot [sl]. *)
Definition inside (sl : slot) (r : SessionRequest) : Prop :=
  instant (fst sl) <= instant (start_time r)
  /\ instant (end_time r) <= instant (snd sl).

(** The request for the subject at index 0, 1, 2 or 3 of [SUBJECTS], from
    [start_time] and of the given duration. *)
Definition physics (start_time : aware) (d : timedelta) : SessionRequest :=
  mkSessionRequest start_time (add start_time d) "Physics" 11.

Definition calculus (start_time : aware) (d : timedelta) : SessionRequest :=
  mkSessionRequest start_time (add start_time d) "Calculus and Vectors" 7.

Definition english (start_time : aware) (d : timedelta) : SessionRequest :=
  mkSessionRequest start_time (add start_time d) "English" 8.

Definition data_management (start_time : aware) (d : timedelta)
  : SessionRequest :=
  mkSessionRequest start_time (add start_time d) "Data Management" 7.

(** What the loop of [fill_sessions] places from subject index 0: at most
    two sessions of 90 minutes, back to back from [session_start], each
    only if it ends by [end_time]. *)
Definition two_sessions (session_start end_time : aware)
  : list SessionRequest :=
  if leb (add session_start SESSION_DURATION) end_time
  then
    let second_start := add session_start SESSION_DURATION in
    physics session_start SESSION_DURATION
    :: (if leb (add second_start SESSION_DURATION) end_time
        then [calculus second_start SESSION_DURATION]
        else [])
  else [].

(** The four sessions of a whole afternoon window on a standard day. *)
Definition four_sessions (now : aware) (i : Z) : list SessionRequest :=
  [ mkSessionRequest (at_day now i 15 45) (at_day now i 17 15) "Physics" 11;
    mkSessionRequest (at_day now i 17 15) (at_day now i 18 45)
                     "Calculus and Vectors" 7;
    mkSessionRequest (at_day now i 18 45) (at_day now i 20 15) "English" 8;
    mkSessionRequest (at_day now i 20 15) (at_day now i 21 15)
                     "Data Management" 7 ].

(** The two sessions of a whole morning window, and the two sessions from
    the anchor 16:45 of a whole afternoon window. *)
Definition morning_sessions (now : aware) (i : Z) : list SessionRequest :=
  [ mkSessionRequest (at_day now i 4 30) (at_day now i 6 0) "Physics" 11;
    mkSessionRequest (at_day now i 6 0) (at_day now i 7 30)
                     "Calculus and Vectors" 7 ].

Definition anchored_sessions (now : aware) (i : Z) : list SessionRequest :=
  [ mkSessionRequest (at_day now i 16 45) (at_day now i 18 15) "Physics" 11;
    mkSessionRequest (at_day now i 18 15) (at_day now i 19 45)
                     "Calculus and Vectors" 7 ].

(** The value of [today] in iteration [day_index] of the allocator. *)
Definition today_of (clock : Z -> aware) (day_index : Z) : aware :=
  add (clock day_index) (timedelta_days day_index).

(** The sessions of day [d]: the morning sessions when no event blacks
    out the morning window, then, when no event blacks out the afternoon
    window, the four sessions of a standard day or the two anchored
    sessions of a Thursday or Friday. *)
Definition day_sessions (events : list Event) (now : aware)
           (clock : Z -> aware) (d : nat) : list SessionRequest :=
  (if free_of events (morning_window now (Z.of_nat d))
   then morning_sessions now (Z.of_nat d) else [])
  ++ (if free_of events (afternoon_window now (Z.of_nat d))
      then if standard_day (today_of clock (Z.of_nat d))
           then four_sessions now (Z.of_nat d)
           else anchored_sessions now (Z.of_nat d)
      else []).

(** The session [r] ends no later than [r'] starts. *)
Definition before (r r' : SessionRequest) : Prop :=
  instant (end_time r) <= instant (start_time r').

(** The calls of [add_event] made by a computation started with none made. *)
Definition calls {A} (m : Sched A) : list SessionRequest := snd (m []).

(** A computation that only appends to the calls made, and whose course
    does not depend on them. *)
Definition framed {A} (m : Sched A) : Prop :=
  forall tr, m tr = (fst (m []), tr ++ snd (m [])).

(* ------------------------------------------------------------------ *)
(** ** Facts about [datetime] *)

Ltac unfold_units :=
  cbv [US_PER_DAY US_PER_HOUR US_PER_MINUTE US_PER_SECOND
       timedelta_minutes timedelta_days
       SESSION_DURATION DATA_MANAGEMENT_DURATION] in *.

Lemma wall_of_wall (t : Z) : wall (of_wall t) = t.
Proof.
  unfold wall, of_wall; simpl. unfold_units.
  Z.div_mod_to_equations; lia.
Qed.

Lemma of_wall_wall (d : datetime) : valid d -> of_wall (wall d) = d.
Proof.
  destruct d as [o h m s u]. unfold valid; simpl.
  intros (Hh & Hm & Hs & Hu).
  unfold of_wall, wall; simpl. unfold_units.
  f_equal; Z.div_mod_to_equations; lia.
Qed.

(** Adding a duration that leads to the valid reading [d']. *)
Lemma add_naive_eq (d d' : datetime) (td : timedelta) :
  valid d' -> wall d' = wall d + td -> add_naive d td = d'.
Proof.
  intros Hv Hw. unfold add_naive. rewrite <- Hw. now apply of_wall_wall.
Qed.

Lemma add_eq (a : aware) (d' : datetime) (td : timedelta) :
  valid d' -> wall d' = wall (local a) + td ->
  add a td = {| local := d'; utcoffset := utcoffset a |}.
Proof.
  intros Hv Hw. unfold add. f_equal. now apply add_naive_eq.
Qed.

Lemma instant_add (a : aware) (td : timedelta) :
  instant (add a td) = instant a + td.
Proof.
  unfold instant, add, add_naive; simpl. rewrite wall_of_wall. lia.
Qed.

Lemma ltb_lt (a b : aware) : ltb a b = true <-> instant a < instant b.
Proof. unfold ltb. apply Z.ltb_lt. Qed.

Lemma leb_le (a b : aware) : leb a b = true <-> instant a <= instant b.
Proof. unfold leb. apply Z.leb_le. Qed.

Lemma instant_at_day (now : aware) (i h m : Z) :
  instant (at_day now i h m)
  = (ordinal (local now) + i) * US_PER_DAY + h * US_PER_HOUR
    + m * US_PER_MINUTE - utcoffset now * US_PER_SECOND.
Proof. unfold instant, at_day, wall; simpl. lia. Qed.

(** Clock arithmetic inside one day. *)
Lemma add_at_day (now : aware) (i h m h' m' k : Z) :
  0 <= h' < 24 -> 0 <= m' < 60 -> h * 60 + m + k = h' * 60 + m' ->
  add (at_day now i h m) (timedelta_minutes k) = at_day now i h' m'.
Proof.
  intros Hh Hm Hk. unfold at_day at 2.
  apply (add_eq (at_day now i h m)).
  - unfold valid; simpl; lia.
  - unfold wall; simpl. unfold_units. lia.
Qed.

Lemma replace_at_day (now : aware) (i h m h' m' : Z) :
  replace (at_day now i h m) h' m' = at_day now i h' m'.
Proof. reflexivity. Qed.

(** ** Facts about the calculator *)

(** The loop variable [today] in closed form. *)
Lemma today_at_eq (now : aware) (i : nat) :
  today_at now i = at_day now (Z.of_nat i) 4 35.
Proof.
  induction i as [|i IH].
  - unfold today_at, at_day, replace4, replace_hmsu; simpl.
    now rewrite Z.add_0_r.
  - cbn [today_at]. rewrite IH.
    unfold at_day at 2.
    apply (add_eq (at_day now (Z.of_nat i) 4 35)).
    + unfold valid; simpl; lia.
    + unfold wall; simpl. unfold_units. lia.
Qed.

Lemma windows_today_at (now : aware) (i : nat) :
  morning_slots (today_at now i) ++ afternoon_slots (today_at now i)
  = [morning_window now (Z.of_nat i); afternoon_window now (Z.of_nat i)].
Proof. rewrite today_at_eq. reflexivity. Qed.

Lemma skipped_busy_interval (event : Event) :
  skipped event = true -> busy_interval event = ret None.
Proof. unfold busy_interval. now intros ->. Qed.

Lemma filter_filter {A} (f g : A -> bool) (l : list A) :
  filter g (filter f l) = filter (fun x => f x && g x) l.
Proof.
  induction l as [|x l IH]; simpl; [reflexivity|].
  destruct (f x); simpl; [destruct (g x)|]; now rewrite IH.
Qed.

(** The event loop either raises the first exception of a reading, or
    keeps the slots no event blacks out. *)
Lemma blackout_spec (events : list Event) (daily_slots : list slot) :
  blackout events daily_slots
  = match first_error events with
    | Some e => raise e
    | None => ret (filter (free_of events) daily_slots)
    end.
Proof.
  revert daily_slots.
  induction events as [|event rest IH]; intros daily_slots.
  - simpl. unfold free_of; simpl.
    f_equal. induction daily_slots; simpl; congruence.
  - cbn [blackout first_error]. unfold bind.
    unfold free_of, hits; cbn [forallb].
    destruct (busy_interval event) as [e|[[s e]|]]; [reflexivity| |].
    + rewrite IH. destruct (first_error rest); [reflexivity|].
      now rewrite filter_filter.
    + rewrite IH. destruct (first_error rest); reflexivity.
Qed.

Lemma days_loop_spec (events : list Event) (now : aware) (n i : nat)
      (free_slots : list (list slot)) :
  days_loop events n (today_at now i) free_slots
  = match first_error events, n with
    | Some e, S _ => raise e
    | _, _ =>
      ret (free_slots
           ++ map (fun j => filter (free_of events)
                      [morning_window now (Z.of_nat j);
                       afternoon_window now (Z.of_nat j)])
                  (seq i n))
    end.
Proof.
  revert i free_slots.
  induction n as [|n IH]; intros i free_slots.
  - simpl. rewrite app_nil_r. now destruct (first_error events).
  - cbn [days_loop]. rewrite windows_today_at, blackout_spec.
    destruct (first_error events) as [e|] eqn:E; [reflexivity|].
    unfold bind, ret. change (add (today_at now i) (timedelta_days 1))
      with (today_at now (S i)).
    rewrite IH. cbn [seq map]. rewrite <- app_assoc.
    now destruct n.
Qed.

(** [get_free_time] in closed form. *)
Lemma get_free_time_spec (now : aware) (events : list Event) :
  get_free_time now events
  = match first_error events with
    | Some e => raise e
    | None =>
      ret (map (fun j => filter (free_of events)
                  [morning_window now (Z.of_nat j);
                   afternoon_window now (Z.of_nat j)])
               (seq 0 7))
    end.
Proof.
  unfold get_free_time.
  change (replace4 now 4 35 0 0) with (today_at now 0).
  rewrite days_loop_spec. now destruct (first_error events).
Qed.

Lemma first_error_parse (events : list Event) :
  Forall timestamps_parse events -> first_error events = None.
Proof.
  induction 1 as [|event rest Hp _ IH]; [reflexivity|].
  cbn [first_error]. unfold busy_interval.
  destruct (skipped event) eqn:Hs; [exact IH|].
  destruct (stamp (start event)) as [s|] eqn:Es; [|exact IH].
  destruct (stamp (end_ event)) as [e|] eqn:Ee; [|exact IH].
  destruct (Hp s e Hs Es Ee) as [H1 H2].
  unfold parse, bind, ret.
  destruct (isoparse s); [|contradiction].
  destruct (isoparse e); [exact IH|contradiction].
Qed.

Lemma nth_error_map_seq {A} (f : nat -> A) (s n i : nat) (x : A) :
  nth_error (map f (seq s n)) i = Some x -> x = f (s + i)%nat /\ (i < n)%nat.
Proof.
  revert s i. induction n as [|n IH]; intros s i H.
  - destruct i; discriminate.
  - destruct i as [|i]; cbn in H.
    + injection H as <-. rewrite Nat.add_0_r. split; [reflexivity|lia].
    + apply IH in H. rewrite Nat.add_succ_r. destruct H; split; [easy|lia].
Qed.

(** The list of one day in the result of [get_free_time]. *)
Lemma get_free_time_day (now : aware) (events : list Event)
      (free_slots : list (list slot)) (i : nat) (daily : list slot) :
  get_free_time now events = ret free_slots ->
  nth_error free_slots i = Some daily ->
  (i < 7)%nat
  /\ daily = filter (free_of events)
               [morning_window now (Z.of_nat i);
                afternoon_window now (Z.of_nat i)].
Proof.
  rewrite get_free_time_spec.
  destruct (first_error events); [discriminate|].
  intros Heq H.
  assert (E : free_slots
              = map (fun j => filter (free_of events)
                       [morning_window now (Z.of_nat j);
                        afternoon_window now (Z.of_nat j)]) (seq 0 7))
    by (unfold ret in Heq; congruence).
  rewrite E in H. apply nth_error_map_seq in H. now destruct H.
Qed.

Lemma free_of_hits (events : list Event) (sl : slot) (event : Event) :
  free_of events sl = true -> In event events -> hits sl event = false.
Proof.
  unfold free_of. rewrite forallb_forall. intros H Hin.
  apply H in Hin. now apply negb_true_iff in Hin.
Qed.

Lemma window_start_before_end (now : aware) (i : Z) (sl : slot) :
  In sl [morning_window now i; afternoon_window now i] ->
  instant (fst sl) < instant (snd sl).
Proof.
  unfold morning_window, afternoon_window.
  intros [<-|[<-|[]]]; cbn [fst snd]; rewrite !instant_at_day;
    unfold_units; lia.
Qed.

(** Of the two windows of a day, neither lies within the other. *)
Lemma window_within_eq (now : aware) (i : Z) (sl w : slot) :
  In sl [morning_window now i; afternoon_window now i] ->
  In w [morning_window now i; afternoon_window now i] ->
  within sl w -> sl = w.
Proof.
  unfold within, morning_window, afternoon_window.
  intros [<-|[<-|[]]] [<-|[<-|[]]]; cbn [fst snd]; try reflexivity;
    rewrite !instant_at_day; unfold_units; lia.
Qed.

(* ------------------------------------------------------------------ *)
(** ** The calculator: claims *)

(** C7. With no busy event, [get_free_time] returns, for each of the 7
    consecutive days starting with the day of [now], exactly the morning
    window 04:30-08:00 and the afternoon window 15:45-21:30 of that day,
    day [i] being the date of [now] advanced by [i] days. *)
Theorem get_free_time_no_events (now : aware) :
  get_free_time now []
  = ret (map (fun i => [ (at_day now i 4 30, at_day now i 8 0);
                         (at_day now i 15 45, at_day now i 21 30) ])
             [0; 1; 2; 3; 4; 5; 6]).
Proof. rewrite get_free_time_spec. reflexivity. Qed.

(** C10. When the timestamps of the events parse, [get_free_time] returns
    exactly 7 per-day lists; each has at most 2 intervals; every interval
    is one of the two full windows of its day (04:30 to 08:00, or 15:45 to
    21:30), never a part of one, and starts before it ends. *)
Theorem get_free_time_shape (now : aware) (events : list Event) :
  Forall timestamps_parse events ->
  exists free_slots,
    get_free_time now events = ret free_slots
    /\ List.length free_slots = 7%nat
    /\ forall i daily, nth_error free_slots i = Some daily ->
         (List.length daily <= 2)%nat
         /\ forall sl, In sl daily ->
              (sl = (at_day now (Z.of_nat i) 4 30, at_day now (Z.of_nat i) 8 0)
               \/ sl = (at_day now (Z.of_nat i) 15 45,
                        at_day now (Z.of_nat i) 21 30))
              /\ instant (fst sl) < instant (snd sl).
Proof.
  intros Hp. pose proof (get_free_time_spec now events) as Hs.
  rewrite (first_error_parse events Hp) in Hs.
  eexists; split; [exact Hs|]. split; [reflexivity|].
  intros i daily Hn.
  destruct (get_free_time_day _ _ _ _ _ Hs Hn) as [_ ->].
  split.
  - apply (filter_length_le (free_of events)
             [morning_window now (Z.of_nat i);
              afternoon_window now (Z.of_nat i)]).
  - intros sl Hin. apply filter_In in Hin. destruct Hin as [Hin _].
    split.
    + destruct Hin as [<-|[<-|[]]]; [now left|now right].
    + now apply (window_start_before_end now (Z.of_nat i)).
Qed.

(** C2. Whole-window blackout: if an event that is read as the busy
    interval [(s, e)] overlaps a candidate window [w] of day [i] in the
    open-interval test, then no interval of the list returned for day [i]
    lies within [w]: the window is removed whole, and nothing of it
    remains. *)
Theorem whole_window_blackout (now : aware) (events : list Event) (i : nat)
        (w : slot) (event : Event) (s e : aware)
        (free_slots : list (list slot)) (daily : list slot) :
  In w (morning_slots (today_at now i) ++ afternoon_slots (today_at now i)) ->
  In event events ->
  busy_interval event = ret (Some (s, e)) ->
  instant s < instant (snd w) /\ instant (fst w) < instant e ->
  get_free_time now events = ret free_slots ->
  nth_error free_slots i = Some daily ->
  ~ In w daily /\ forall sl, In sl daily -> ~ within sl w.
Proof.
  intros Hw Hin Hb [Ho1 Ho2] Hg Hn.
  rewrite windows_today_at in Hw.
  destruct (get_free_time_day _ _ _ _ _ Hg Hn) as [_ ->].
  assert (Hfree : free_of events w = false).
  { destruct (free_of events w) eqn:F; [|reflexivity].
    pose proof (free_of_hits _ _ _ F Hin) as Hh.
    unfold hits in Hh. rewrite Hb in Hh. unfold ret in Hh.
    unfold overlaps in Hh. apply andb_false_iff in Hh.
    destruct Hh as [Hh|Hh]; apply Z.ltb_ge in Hh; lia. }
  split.
  - intros H. apply filter_In in H. destruct H as [_ H]. congruence.
  - intros sl H Hwi. apply filter_In in H. destruct H as [Hsl Hf].
    assert (sl = w) by now apply (window_within_eq now (Z.of_nat i)).
    congruence.
Qed.

Lemma first_error_skip (before after : list Event) (event : Event) :
  skipped event = true ->
  first_error (before ++ event :: after) = first_error (before ++ after).
Proof.
  intros Hs. induction before as [|x before IH]; cbn [app first_error].
  - now rewrite (skipped_busy_interval _ Hs).
  - now rewrite IH.
Qed.

Lemma free_of_skip (before after : list Event) (event : Event) (sl : slot) :
  skipped event = true ->
  free_of (before ++ event :: after) sl = free_of (before ++ after) sl.
Proof.
  intros Hs. unfold free_of. rewrite !forallb_app. cbn [forallb].
  unfold hits at 2. now rewrite (skipped_busy_interval _ Hs).
Qed.

(** C8. An event whose start or end timestamp is absent (line 86:
    [not start or not end]) is skipped: the result of [get_free_time] in
    its presence is the result with that event removed from the list. *)
Theorem malformed_event_skipped (now : aware) (before after : list Event)
        (event : Event) :
  skipped event = true ->
  get_free_time now (before ++ event :: after)
  = get_free_time now (before ++ after).
Proof.
  intros Hs. rewrite !get_free_time_spec.
  rewrite (first_error_skip _ _ _ Hs).
  destruct (first_error (before ++ after)); [reflexivity|].
  f_equal. apply map_ext. intros j.
  apply filter_ext. intros sl. now apply free_of_skip.
Qed.

(** An event with neither [dateTime] nor [date] under [start] is one of
    the skipped events; likewise under [end]. *)
Lemma absent_start_skipped (event : Event) :
  dateTime (start event) = None -> date (start event) = None ->
  skipped event = true.
Proof. unfold skipped, stamp, py_or. now intros -> ->. Qed.

Lemma absent_end_skipped (event : Event) :
  dateTime (end_ event) = None -> date (end_ event) = None ->
  skipped event = true.
Proof.
  unfold skipped, stamp, py_or. intros -> ->. simpl. apply orb_true_r.
Qed.

Lemma blackout_idempotent (events : list Event) (daily out : list slot) :
  blackout events daily = ret out -> blackout events out = ret out.
Proof.
  rewrite !blackout_spec. destruct (first_error events); [discriminate|].
  intros [= <-]. f_equal. rewrite filter_filter.
  apply filter_ext. intros sl. now destruct (free_of events sl).
Qed.

(** C9. The result of the calculator is a function of the windows and the
    events alone: two runs on the same events whose reference times have
    the same date and zone offset (so the same windows; in particular two
    runs at the same reference time) return identical lists, and applying
    the blackout loop again to a day's result leaves it as it is. *)
Theorem get_free_time_deterministic (now now' : aware)
        (events : list Event) :
  ordinal (local now) = ordinal (local now') ->
  utcoffset now = utcoffset now' ->
  get_free_time now events = get_free_time now' events
  /\ forall daily out,
       blackout events daily = ret out -> blackout events out = ret out.
Proof.
  intros Ho Hz. split; [|apply blackout_idempotent].
  rewrite !get_free_time_spec.
  unfold morning_window, afternoon_window, at_day. now rewrite Ho, Hz.
Qed.

(* ------------------------------------------------------------------ *)
(** ** Facts about the effects of the allocator *)

Lemma framed_sret {A} (a : A) : framed (sret a).
Proof. intros tr. unfold sret; simpl. now rewrite app_nil_r. Qed.

Lemma framed_lift {A} (r : result A) : framed (lift r).
Proof. intros tr. unfold lift; simpl. now rewrite app_nil_r. Qed.

Lemma framed_add_event (s e : aware) (subject : string) (color_id : Z) :
  framed (add_event s e subject color_id).
Proof. intros tr. reflexivity. Qed.

Lemma framed_sbind {A B} (m : Sched A) (k : A -> Sched B) :
  framed m -> (forall a, framed (k a)) -> framed (sbind m k).
Proof.
  intros Hm Hk tr. unfold sbind. rewrite (Hm tr).
  destruct (m []) as [[e|a] out]; cbn [fst snd]; [reflexivity|].
  rewrite (Hk a (tr ++ out)), (Hk a out). cbn [fst snd].
  now rewrite app_assoc.
Qed.

(** The calls of a sequence are those of its first part, then those of
    its second part if the first returns. *)
Lemma calls_sbind {A B} (m : Sched A) (k : A -> Sched B) :
  (forall a, framed (k a)) ->
  calls (sbind m k)
  = calls m ++ match fst (m []) with
               | inr a => calls (k a)
               | inl _ => []
               end.
Proof.
  intros Hk. unfold calls, sbind.
  destruct (m []) as [[e|a] out]; cbn [fst snd].
  - now rewrite app_nil_r.
  - now rewrite (Hk a out).
Qed.

Lemma framed_calls {A} (m : Sched A) (tr : list SessionRequest) :
  framed m -> snd (m tr) = tr ++ calls m.
Proof. intros H. now rewrite (H tr). Qed.

(** The loop of [fill_sessions] only appends to the calls made. *)
Lemma fill_sessions_app (session_start end_time : aware) (subject_index : Z)
      (tr : list SessionRequest) :
  forall tr0,
    fill_sessions session_start end_time subject_index (tr0 ++ tr)
    = (fst (fill_sessions session_start end_time subject_index tr),
       tr0 ++ snd (fill_sessions session_start end_time subject_index tr)).
Proof.
  functional induction
    (fill_sessions session_start end_time subject_index tr)
    as [s e i tr Hc se x Hg | s e i tr Hc se sub col Hg x tr' Ha
        | s e i tr Hc se sub col Hg u tr' Ha IH | s e i tr Hc];
    intros tr0; rewrite fill_sessions_equation, Hc.
  - now rewrite Hg.
  - discriminate Ha.
  - rewrite Hg. unfold add_event in *. injection Ha as _ <-.
    rewrite <- (IH tr0). now rewrite app_assoc.
  - reflexivity.
Qed.

Lemma framed_fill_sessions (session_start end_time : aware)
      (subject_index : Z) :
  framed (fill_sessions session_start end_time subject_index).
Proof.
  intros tr.
  pose proof (fill_sessions_app session_start end_time subject_index [] tr)
    as H.
  now rewrite app_nil_r in H.
Qed.

(** From subject index 0 the loop places [two_sessions]. *)
Lemma fill_sessions_from_0 (session_start end_time : aware)
      (tr : list SessionRequest) :
  fill_sessions session_start end_time 0 tr
  = (ret tt, tr ++ two_sessions session_start end_time).
Proof.
  unfold two_sessions, physics, calculus. rewrite fill_sessions_equation.
  destruct (leb (add session_start SESSION_DURATION) end_time);
    [|now rewrite app_nil_r].
  change (getitem SUBJECTS 0) with (@ret (string * Z) ("Physics"%string, 11)).
  change (0 <? 2) with true. change (0 + 1) with 1.
  unfold ret, add_event. cbv beta iota. cbn [andb].
  rewrite fill_sessions_equation.
  change (getitem SUBJECTS 1)
    with (@ret (string * Z) ("Calculus and Vectors"%string, 7)).
  change (1 <? 2) with true. change (1 + 1) with 2.
  destruct (leb (add (add session_start SESSION_DURATION) SESSION_DURATION)
                end_time); unfold ret, add_event; cbv beta iota; cbn [andb].
  - rewrite fill_sessions_equation. change (2 <? 2) with false.
    rewrite andb_false_r. now rewrite <- app_assoc.
  - reflexivity.
Qed.

Lemma in_calls_sbind {A B} (m : Sched A) (k : A -> Sched B)
      (r : SessionRequest) :
  (forall a, framed (k a)) ->
  In r (calls (sbind m k)) ->
  In r (calls m) \/ exists a, fst (m []) = inr a /\ In r (calls (k a)).
Proof.
  intros Hk. rewrite (calls_sbind m k Hk). intros H.
  apply in_app_or in H. destruct H as [H|H]; [now left|].
  destruct (fst (m [])) as [e|a]; [destruct H|]. right. now exists a.
Qed.

Lemma framed_morning_fill (s e : aware) : framed (morning_fill s e).
Proof.
  unfold morning_fill.
  destruct (_ && _); [apply framed_fill_sessions|apply framed_sret].
Qed.

Lemma framed_morning_pass (slots : list slot) : framed (morning_pass slots).
Proof.
  induction slots as [|[s e] rest IH]; cbn [morning_pass].
  - apply framed_sret.
  - apply framed_sbind; [apply framed_morning_fill|now intros _].
Qed.

Lemma framed_standard_sessions (order : list Z) (s e : aware) :
  framed (standard_sessions order s e).
Proof.
  revert s. induction order as [|i rest IH]; intros s;
    cbn [standard_sessions].
  - apply framed_sret.
  - destruct (leb (add s SESSION_DURATION) e); [|apply IH].
    apply framed_sbind; [apply framed_lift|]. intros [subject color_id].
    apply framed_sbind; [apply framed_add_event|]. intros _. apply IH.
Qed.

Lemma framed_standard_afternoon (s e : aware) :
  framed (standard_afternoon s e).
Proof.
  unfold standard_afternoon.
  apply framed_sbind; [apply framed_standard_sessions|]. intros st.
  destruct (leb (add st DATA_MANAGEMENT_DURATION) e); [|apply framed_sret].
  apply framed_sbind; [apply framed_lift|]. intros [subject color_id].
  apply framed_add_event.
Qed.

Lemma framed_afternoon_fill (today s e : aware) :
  framed (afternoon_fill today s e).
Proof.
  unfold afternoon_fill, compressed_afternoon.
  destruct (_ && _); [|apply framed_sret].
  destruct (standard_day today);
    [apply framed_standard_afternoon|apply framed_fill_sessions].
Qed.

Lemma framed_afternoon_pass (today : aware) (slots : list slot) :
  framed (afternoon_pass today slots).
Proof.
  induction slots as [|[s e] rest IH]; cbn [afternoon_pass].
  - apply framed_sret.
  - apply framed_sbind; [apply framed_afternoon_fill|now intros _].
Qed.

Lemma framed_schedule_day (free_slots : list (list slot))
      (clock : Z -> aware) (day_index : Z) :
  framed (schedule_day free_slots clock day_index).
Proof.
  unfold schedule_day.
  apply framed_sbind; [apply framed_lift|]. intros slots.
  apply framed_sbind; [apply framed_morning_pass|]. intros _.
  apply framed_afternoon_pass.
Qed.

Lemma framed_for_days (free_slots : list (list slot)) (clock : Z -> aware)
      (range : list Z) :
  framed (for_days free_slots clock range).
Proof.
  induction range as [|d rest IH]; cbn [for_days].
  - apply framed_sret.
  - apply framed_sbind; [apply framed_schedule_day|now intros _].
Qed.

(** Every call of a pass is a call of the fill of one of the slots. *)
Lemma in_calls_morning_pass (slots : list slot) (r : SessionRequest) :
  In r (calls (morning_pass slots)) ->
  exists s e, In (s, e) slots /\ In r (calls (morning_fill s e)).
Proof.
  induction slots as [|[s e] rest IH]; cbn [morning_pass]; [intros []|].
  intros H. apply in_calls_sbind in H;
    [|intros _; apply framed_morning_pass].
  destruct H as [H|(_ & _ & H)].
  - exists s, e. split; [now left|exact H].
  - destruct (IH H) as (s' & e' & Hin & Hr).
    exists s', e'. split; [now right|exact Hr].
Qed.

Lemma in_calls_afternoon_pass (today : aware) (slots : list slot)
      (r : SessionRequest) :
  In r (calls (afternoon_pass today slots)) ->
  exists s e, In (s, e) slots /\ In r (calls (afternoon_fill today s e)).
Proof.
  induction slots as [|[s e] rest IH]; cbn [afternoon_pass]; [intros []|].
  intros H. apply in_calls_sbind in H;
    [|intros _; apply framed_afternoon_pass].
  destruct H as [H|(_ & _ & H)].
  - exists s, e. split; [now left|exact H].
  - destruct (IH H) as (s' & e' & Hin & Hr).
    exists s', e'. split; [now right|exact Hr].
Qed.

Lemma in_calls_for_days (free_slots : list (list slot)) (clock : Z -> aware)
      (range : list Z) (r : SessionRequest) :
  In r (calls (for_days free_slots clock range)) ->
  exists d, In d range /\ In r (calls (schedule_day free_slots clock d)).
Proof.
  induction range as [|d rest IH]; cbn [for_days]; [intros []|].
  intros H. apply in_calls_sbind in H;
    [|intros _; apply framed_for_days].
  destruct H as [H|(_ & _ & H)].
  - exists d. split; [now left|exact H].
  - destruct (IH H) as (d' & Hin & Hr).
    exists d'. split; [now right|exact Hr].
Qed.

Lemma getitem_nth_error {A} (l : list A) (i : Z) (a : A) :
  0 <= i -> getitem l i = ret a -> nth_error l (Z.to_nat i) = Some a.
Proof.
  intros Hi. unfold getitem.
  destruct (i <? 0) eqn:E; [apply Z.ltb_lt in E; lia|].
  destruct (_ || _); [discriminate|].
  destruct (nth_error l (Z.to_nat i)); [|discriminate].
  unfold ret. congruence.
Qed.

Lemma in_calls_schedule_day (free_slots : list (list slot))
      (clock : Z -> aware) (d : Z) (r : SessionRequest) :
  0 <= d ->
  In r (calls (schedule_day free_slots clock d)) ->
  exists daily s e,
    nth_error free_slots (Z.to_nat d) = Some daily /\ In (s, e) daily
    /\ (In r (calls (morning_fill s e))
        \/ In r (calls (afternoon_fill
                          (add (clock d) (timedelta_days d)) s e))).
Proof.
  intros Hd H. unfold schedule_day in H.
  apply in_calls_sbind in H.
  2:{ intros slots. apply framed_sbind; [apply framed_morning_pass|].
      intros _. apply framed_afternoon_pass. }
  destruct H as [[]|(daily & Hg & H)].
  unfold lift in Hg; cbn [fst] in Hg.
  apply getitem_nth_error in Hg; [|exact Hd].
  apply in_calls_sbind in H; [|intros _; apply framed_afternoon_pass].
  destruct H as [H|(_ & _ & H)].
  - apply in_calls_morning_pass in H. destruct H as (s & e & Hin & Hr).
    exists daily, s, e. auto.
  - apply in_calls_afternoon_pass in H. destruct H as (s & e & Hin & Hr).
    exists daily, s, e. auto.
Qed.

(* ------------------------------------------------------------------ *)
(** ** Sessions stay inside their slot *)

Lemma two_sessions_bounds (lo : Z) (s e : aware) (r : SessionRequest) :
  lo <= instant s ->
  In r (two_sessions s e) ->
  lo <= instant (start_time r) /\ instant (end_time r) <= instant e.
Proof.
  intros Hlo. unfold two_sessions.
  pose proof (proj1 (leb_le (add s SESSION_DURATION) e)) as E1.
  pose proof (proj1 (leb_le (add (add s SESSION_DURATION) SESSION_DURATION) e))
    as E2.
  assert (Hlo' : lo <= instant (add s SESSION_DURATION))
    by (rewrite instant_add; unfold_units; lia).
  destruct (leb (add s SESSION_DURATION) e); [|intros []].
  destruct (leb (add (add s SESSION_DURATION) SESSION_DURATION) e).
  - intros [<-|[<-|[]]]; unfold physics, calculus; cbn [start_time end_time];
      auto.
  - intros [<-|[]]; unfold physics; cbn [start_time end_time]; auto.
Qed.

Lemma morning_fill_inside (s e : aware) (r : SessionRequest) :
  In r (calls (morning_fill s e)) -> inside (s, e) r.
Proof.
  unfold morning_fill, calls.
  destruct (_ && _); [|intros []].
  rewrite fill_sessions_from_0. cbn [snd app].
  apply two_sessions_bounds. cbn [fst]. lia.
Qed.

(** The loop over [subjects_order] never moves [start_time] back, and
    places only sessions that end by [end_time]. *)
Lemma standard_sessions_bounds (order : list Z) (lo : Z) (e : aware) :
  forall s, lo <= instant s ->
    (forall r, In r (calls (standard_sessions order s e)) ->
       lo <= instant (start_time r) /\ instant (end_time r) <= instant e)
    /\ (forall st, fst (standard_sessions order s e []) = inr st ->
          lo <= instant st).
Proof.
  induction order as [|i rest IH]; intros s Hlo; cbn [standard_sessions].
  - split; [intros r []|]. unfold sret; cbn [fst]. intros st [= <-]. exact Hlo.
  - destruct (leb (add s SESSION_DURATION) e) eqn:E; [|now apply IH].
    apply leb_le in E.
    assert (Hlo' : lo <= instant (add s SESSION_DURATION))
      by (rewrite instant_add; unfold_units; lia).
    destruct (IH (add s SESSION_DURATION) Hlo') as [IHr IHs].
    unfold lift, sbind, calls, add_event in *.
    destruct (getitem SUBJECTS i) as [x|[subject color_id]]; cbn [fst snd].
    + split; [intros r []|discriminate].
    + rewrite (framed_standard_sessions rest (add s SESSION_DURATION) e).
      cbn [fst snd]. split; [|exact IHs].
      intros r [<-|H]; cbn [start_time end_time]; [lia|now apply IHr].
Qed.

Lemma standard_afternoon_inside (s e : aware) (r : SessionRequest) :
  In r (calls (standard_afternoon s e)) -> inside (s, e) r.
Proof.
  unfold standard_afternoon. intros H.
  destruct (standard_sessions_bounds [0; 1; 2] (instant s) e s (Z.le_refl _))
    as [Hr Hs].
  apply in_calls_sbind in H.
  2:{ intros st. destruct (leb _ e); [|apply framed_sret].
      apply framed_sbind; [apply framed_lift|]. intros [subject color_id].
      apply framed_add_event. }
  destruct H as [H|(st & Hst & H)]; [exact (Hr r H)|].
  apply Hs in Hst.
  destruct (leb (add st DATA_MANAGEMENT_DURATION) e) eqn:E; [|destruct H].
  apply leb_le in E. unfold calls, sbind, lift, add_event in H.
  change (getitem SUBJECTS 3)
    with (@ret (string * Z) ("Data Management"%string, 7)) in H.
  unfold ret in H. cbn [snd app] in H. destruct H as [<-|[]].
  unfold inside; cbn [fst snd start_time end_time]. lia.
Qed.

(** The anchor 16:45 is one hour after a start that reads 15:45. *)
Lemma instant_anchor (s : aware) :
  hour (local s) = 15 -> minute (local s) = 45 ->
  instant (replace s 16 45) = instant s + timedelta_minutes 60.
Proof.
  intros Hh Hm. unfold instant, replace, replace_hm, wall; cbn.
  rewrite Hh, Hm. unfold_units. lia.
Qed.

Lemma afternoon_fill_inside (today s e : aware) (r : SessionRequest) :
  In r (calls (afternoon_fill today s e)) -> inside (s, e) r.
Proof.
  unfold afternoon_fill.
  destruct (_ && _) eqn:E; [|intros []].
  apply andb_prop in E. destruct E as [Hh Hm].
  apply Z.eqb_eq in Hh, Hm.
  destruct (standard_day today); [apply standard_afternoon_inside|].
  unfold compressed_afternoon, calls.
  rewrite fill_sessions_from_0. cbn [snd app].
  apply two_sessions_bounds. cbn [fst].
  rewrite (instant_anchor s Hh Hm). unfold_units. lia.
Qed.

Lemma calls_lift_bind {A B} (x : result A) (k : A -> Sched B) :
  calls (sbind (lift x) k)
  = match x with inr a => calls (k a) | inl _ => [] end.
Proof. unfold calls, sbind, lift. now destruct x. Qed.

(** C1. Every session emitted by a run lies within a free interval that
    the calculator returned for the day whose iteration emitted it, and
    that free interval overlaps, in the open-interval test, none of the
    events read as busy intervals. *)
Theorem sessions_within_free_intervals (reply : list_reply) (now : aware)
        (clock : Z -> aware) (r : SessionRequest) :
  In r (emitted reply now clock) ->
  exists free_slots d daily sl,
    get_free_time now (get_events reply) = ret free_slots
    /\ nth_error free_slots d = Some daily
    /\ In r (calls (schedule_day free_slots clock (Z.of_nat d)))
    /\ In sl daily
    /\ instant (fst sl) <= instant (start_time r)
    /\ instant (end_time r) <= instant (snd sl)
    /\ forall event s e,
         In event (get_events reply) ->
         busy_interval event = ret (Some (s, e)) ->
         ~ (instant (fst sl) < instant e /\ instant s < instant (snd sl)).
Proof.
  unfold emitted, schedule_study_sessions. fold (calls
    (sbind (lift (get_free_time now (get_events reply)))
           (fun free_slots =>
              for_days free_slots clock [0; 1; 2; 3; 4; 5; 6]))).
  rewrite calls_lift_bind.
  destruct (get_free_time now (get_events reply)) as [x|free_slots] eqn:Hg;
    [intros []|].
  intros H. apply in_calls_for_days in H. destruct H as (d & Hd & H).
  assert (Hd0 : 0 <= d) by (cbn in Hd; lia).
  pose proof H as H0.
  apply in_calls_schedule_day in H; [|exact Hd0].
  destruct H as (daily & s & e & Hn & Hin & Hr).
  exists free_slots, (Z.to_nat d), daily, (s, e).
  rewrite Z2Nat.id by exact Hd0.
  assert (Hi : inside (s, e) r).
  { destruct Hr as [Hr|Hr];
      [now apply morning_fill_inside|now apply afternoon_fill_inside in Hr]. }
  destruct Hi as [Hi1 Hi2].
  repeat (split; [assumption || reflexivity|]).
  intros event s' e' Hev Hb [Ho1 Ho2].
  destruct (get_free_time_day _ _ _ _ _ Hg Hn) as [_ Hdaily].
  rewrite Hdaily in Hin. apply filter_In in Hin. destruct Hin as [_ Hf].
  pose proof (free_of_hits _ _ _ Hf Hev) as Hh.
  unfold hits in Hh. rewrite Hb in Hh. unfold ret in Hh.
  unfold overlaps in Hh. apply andb_false_iff in Hh.
  destruct Hh as [Hh|Hh]; apply Z.ltb_ge in Hh; cbn [fst snd] in *; lia.
Qed.

(* ------------------------------------------------------------------ *)
(** ** The allocator on the configured windows *)

Lemma leb_at_day (now : aware) (i h m h' m' : Z) :
  leb (at_day now i h m) (at_day now i h' m')
  = (h * 60 + m <=? h' * 60 + m').
Proof.
  unfold leb. rewrite !instant_at_day. unfold_units.
  destruct (Z.leb_spec (h * 60 + m) (h' * 60 + m'));
    [apply Z.leb_le|apply Z.leb_gt]; lia.
Qed.

(** The two sessions of a whole morning window. *)
Lemma two_sessions_morning (now : aware) (i : Z) :
  two_sessions (at_day now i 4 30) (at_day now i 8 0)
  = [ mkSessionRequest (at_day now i 4 30) (at_day now i 6 0) "Physics" 11;
      mkSessionRequest (at_day now i 6 0) (at_day now i 7 30)
                       "Calculus and Vectors" 7 ].
Proof.
  unfold two_sessions, physics, calculus, SESSION_DURATION.
  rewrite (add_at_day now i 4 30 6 0 90) by lia.
  rewrite (add_at_day now i 6 0 7 30 90) by lia.
  rewrite !leb_at_day. reflexivity.
Qed.

(** The two sessions from the anchor 16:45 of a whole afternoon window. *)
Lemma two_sessions_anchored (now : aware) (i : Z) :
  two_sessions (at_day now i 16 45) (at_day now i 21 30)
  = [ mkSessionRequest (at_day now i 16 45) (at_day now i 18 15) "Physics" 11;
      mkSessionRequest (at_day now i 18 15) (at_day now i 19 45)
                       "Calculus and Vectors" 7 ].
Proof.
  unfold two_sessions, physics, calculus, SESSION_DURATION.
  rewrite (add_at_day now i 16 45 18 15 90) by lia.
  rewrite (add_at_day now i 18 15 19 45 90) by lia.
  rewrite !leb_at_day. reflexivity.
Qed.

Lemma standard_afternoon_window (now : aware) (i : Z)
      (tr : list SessionRequest) :
  standard_afternoon (at_day now i 15 45) (at_day now i 21 30) tr
  = (ret tt, tr ++ four_sessions now i).
Proof.
  unfold standard_afternoon. cbn [standard_sessions].
  unfold SESSION_DURATION, DATA_MANAGEMENT_DURATION.
  rewrite (add_at_day now i 15 45 17 15 90) by lia.
  rewrite (add_at_day now i 17 15 18 45 90) by lia.
  rewrite (add_at_day now i 18 45 20 15 90) by lia.
  rewrite !leb_at_day.
  change (getitem SUBJECTS 0) with (@ret (string * Z) ("Physics"%string, 11)).
  change (getitem SUBJECTS 1)
    with (@ret (string * Z) ("Calculus and Vectors"%string, 7)).
  change (getitem SUBJECTS 2) with (@ret (string * Z) ("English"%string, 8)).
  change (getitem SUBJECTS 3)
    with (@ret (string * Z) ("Data Management"%string, 7)).
  unfold sbind, lift, ret, add_event, sret; cbv beta iota zeta.
  change (17 * 60 + 15 <=? 21 * 60 + 30) with true.
  change (18 * 60 + 45 <=? 21 * 60 + 30) with true.
  change (20 * 60 + 15 <=? 21 * 60 + 30) with true.
  cbv beta iota zeta.
  rewrite (add_at_day now i 20 15 21 15 60) by lia.
  rewrite leb_at_day.
  change (21 * 60 + 15 <=? 21 * 60 + 30) with true. cbv beta iota zeta.
  unfold four_sessions. rewrite <- !app_assoc. reflexivity.
Qed.

(** The day's list when there is no event. *)
Lemma free_day_no_events (now : aware) (d : nat)
      (free_slots : list (list slot)) (daily : list slot) :
  get_free_time now [] = ret free_slots ->
  nth_error free_slots d = Some daily ->
  daily = [morning_window now (Z.of_nat d); afternoon_window now (Z.of_nat d)].
Proof.
  intros Hg Hn. destruct (get_free_time_day _ _ _ _ _ Hg Hn) as [_ ->].
  reflexivity.
Qed.

(** A returned interval whose start reads 15:.. is the afternoon window. *)
Lemma surviving_afternoon (now : aware) (events : list Event) (d : nat)
      (free_slots : list (list slot)) (daily : list slot) (sl : slot) :
  get_free_time now events = ret free_slots ->
  nth_error free_slots d = Some daily ->
  In sl daily ->
  hour (local (fst sl)) = 15 ->
  sl = afternoon_window now (Z.of_nat d).
Proof.
  intros Hg Hn Hin Hh.
  destruct (get_free_time_day _ _ _ _ _ Hg Hn) as [_ ->].
  apply filter_In in Hin. destruct Hin as [[<-|[<-|[]]] _];
    [discriminate Hh|reflexivity].
Qed.

Lemma morning_fill_window (now : aware) (i : Z) (tr : list SessionRequest) :
  morning_fill (at_day now i 4 30) (at_day now i 8 0) tr
  = (ret tt,
     tr ++ [ mkSessionRequest (at_day now i 4 30) (at_day now i 6 0)
                              "Physics" 11;
             mkSessionRequest (at_day now i 6 0) (at_day now i 7 30)
                              "Calculus and Vectors" 7 ]).
Proof.
  unfold morning_fill. change (hour (local (at_day now i 4 30))) with 4.
  change (minute (local (at_day now i 4 30))) with 30.
  change ((4 =? 4) && (30 =? 30)) with true. cbv beta iota zeta.
  rewrite fill_sessions_from_0. now rewrite two_sessions_morning.
Qed.

Lemma morning_pass_windows (now : aware) (i : Z) (tr : list SessionRequest) :
  morning_pass [morning_window now i; afternoon_window now i] tr
  = (ret tt,
     tr ++ [ mkSessionRequest (at_day now i 4 30) (at_day now i 6 0)
                              "Physics" 11;
             mkSessionRequest (at_day now i 6 0) (at_day now i 7 30)
                              "Calculus and Vectors" 7 ]).
Proof.
  unfold morning_window, afternoon_window. cbn [morning_pass].
  unfold sbind. rewrite morning_fill_window. reflexivity.
Qed.

Lemma standard_day_true (today : aware) :
  weekday today <> 3 -> weekday today <> 4 -> standard_day today = true.
Proof.
  intros H3 H4. unfold standard_day.
  apply Z.eqb_neq in H3, H4. now rewrite H3, H4.
Qed.

Lemma standard_day_false (today : aware) :
  weekday today = 3 \/ weekday today = 4 -> standard_day today = false.
Proof. unfold standard_day. now intros [-> | ->]. Qed.

Lemma afternoon_fill_standard (today start_time end_time : aware) :
  hour (local start_time) = 15 -> minute (local start_time) = 45 ->
  standard_day today = true ->
  afternoon_fill today start_time end_time
  = standard_afternoon start_time end_time.
Proof. unfold afternoon_fill. now intros -> -> ->. Qed.

Lemma afternoon_fill_compressed (today start_time end_time : aware) :
  hour (local start_time) = 15 -> minute (local start_time) = 45 ->
  standard_day today = false ->
  afternoon_fill today start_time end_time
  = compressed_afternoon start_time end_time.
Proof. unfold afternoon_fill. now intros -> -> ->. Qed.

Lemma afternoon_pass_windows (today now : aware) (i : Z)
      (tr : list SessionRequest) :
  afternoon_pass today [morning_window now i; afternoon_window now i] tr
  = afternoon_fill today (at_day now i 15 45) (at_day now i 21 30) tr.
Proof.
  unfold morning_window, afternoon_window. cbn [afternoon_pass].
  unfold sbind.
  change (afternoon_fill today (at_day now i 4 30) (at_day now i 8 0) tr)
    with (@ret unit tt, tr).
  unfold ret. cbv beta iota.
  destruct (afternoon_fill today (at_day now i 15 45) (at_day now i 21 30) tr)
    as [[x|[]] tr']; reflexivity.
Qed.

(* ------------------------------------------------------------------ *)
(** ** The allocator: claims *)

(** C5. Morning rule: for an interval whose start reads 04:30, the
    allocator places what [two_sessions] describes: sessions of 90
    minutes back to back from the start of the interval, Physics (index 0)
    then Calculus and Vectors (index 1), each only if it ends by the end of
    the interval, and never a third.  With no busy event the morning fill
    of every day is 04:30-06:00 for subject 0 and 06:00-07:30 for subject
    1, and nothing more. *)
Theorem morning_rule (start_time end_time : aware)
        (tr : list SessionRequest) :
  hour (local start_time) = 4 -> minute (local start_time) = 30 ->
  morning_fill start_time end_time tr
  = (ret tt, tr ++ two_sessions start_time end_time)
  /\ (List.length (two_sessions start_time end_time) <= 2)%nat
  /\ forall now d free_slots daily,
       get_free_time now [] = ret free_slots ->
       nth_error free_slots d = Some daily ->
       calls (morning_pass daily)
       = [ mkSessionRequest (at_day now (Z.of_nat d) 4 30)
                            (at_day now (Z.of_nat d) 6 0) "Physics" 11;
           mkSessionRequest (at_day now (Z.of_nat d) 6 0)
                            (at_day now (Z.of_nat d) 7 30)
                            "Calculus and Vectors" 7 ].
Proof.
  intros Hh Hm. split; [|split].
  - unfold morning_fill. rewrite Hh, Hm.
    change ((4 =? 4) && (30 =? 30)) with true. cbv beta iota zeta.
    apply fill_sessions_from_0.
  - unfold two_sessions. destruct (leb _ end_time); [|cbn; lia].
    destruct (leb _ end_time); cbn; lia.
  - intros now d free_slots daily Hg Hn.
    rewrite (free_day_no_events _ _ _ _ Hg Hn).
    unfold calls. now rewrite morning_pass_windows.
Qed.

(** C6. Thursday and Friday: for an interval whose start reads 15:45, the
    fill starts at 16:45 of the same date, whatever the interval is, and
    places what [two_sessions] describes from there: at most two sessions
    of 90 minutes, subjects 0 and 1, each only if it ends by the end of the
    interval.  With no busy event the afternoon of such a day gets subject
    0 at 16:45-18:15 and subject 1 at 18:15-19:45, and nothing more. *)
Theorem thursday_friday_rule (today start_time end_time : aware)
        (tr : list SessionRequest) :
  weekday today = 3 \/ weekday today = 4 ->
  hour (local start_time) = 15 -> minute (local start_time) = 45 ->
  afternoon_fill today start_time end_time tr
  = (ret tt, tr ++ two_sessions (replace start_time 16 45) end_time)
  /\ forall now d free_slots daily,
       get_free_time now [] = ret free_slots ->
       nth_error free_slots d = Some daily ->
       calls (afternoon_pass today daily)
       = [ mkSessionRequest (at_day now (Z.of_nat d) 16 45)
                            (at_day now (Z.of_nat d) 18 15) "Physics" 11;
           mkSessionRequest (at_day now (Z.of_nat d) 18 15)
                            (at_day now (Z.of_nat d) 19 45)
                            "Calculus and Vectors" 7 ].
Proof.
  intros Hw Hh Hm. apply standard_day_false in Hw. split.
  - rewrite (afternoon_fill_compressed _ _ _ Hh Hm Hw).
    unfold compressed_afternoon. apply fill_sessions_from_0.
  - intros now d free_slots daily Hg Hn.
    rewrite (free_day_no_events _ _ _ _ Hg Hn).
    unfold calls. rewrite afternoon_pass_windows.
    rewrite afternoon_fill_compressed by (reflexivity || exact Hw).
    unfold compressed_afternoon. rewrite fill_sessions_from_0.
    rewrite replace_at_day. now rewrite two_sessions_anchored.
Qed.

(** C4. Standard afternoon: on a day that is neither Thursday nor Friday,
    for an afternoon interval returned by the calculator (start reading
    15:45), the allocator places the three sessions of 90 minutes for the
    subjects 0, 1, 2 back to back from the start of the interval, then the
    session of 60 minutes for subject 3: all three were placed and the
    fourth ends at 21:15, no later than the end of the interval; every
    session ends by the end of the interval. *)
Theorem standard_afternoon_rule (now today : aware) (events : list Event)
        (free_slots : list (list slot)) (d : nat) (daily : list slot)
        (sl : slot) (tr : list SessionRequest) :
  weekday today <> 3 -> weekday today <> 4 ->
  get_free_time now events = ret free_slots ->
  nth_error free_slots d = Some daily ->
  In sl daily ->
  hour (local (fst sl)) = 15 -> minute (local (fst sl)) = 45 ->
  afternoon_fill today (fst sl) (snd sl) tr
  = (ret tt,
     tr ++ [ physics (fst sl) SESSION_DURATION;
             calculus (at_day now (Z.of_nat d) 17 15) SESSION_DURATION;
             english (at_day now (Z.of_nat d) 18 45) SESSION_DURATION;
             data_management (at_day now (Z.of_nat d) 20 15)
                             DATA_MANAGEMENT_DURATION ])
  /\ end_time (physics (fst sl) SESSION_DURATION)
     = at_day now (Z.of_nat d) 17 15
  /\ end_time (calculus (at_day now (Z.of_nat d) 17 15) SESSION_DURATION)
     = at_day now (Z.of_nat d) 18 45
  /\ end_time (english (at_day now (Z.of_nat d) 18 45) SESSION_DURATION)
     = at_day now (Z.of_nat d) 20 15
  /\ end_time (data_management (at_day now (Z.of_nat d) 20 15)
                               DATA_MANAGEMENT_DURATION)
     = at_day now (Z.of_nat d) 21 15
  /\ leb (at_day now (Z.of_nat d) 21 15) (snd sl) = true.
Proof.
  intros H3 H4 Hg Hn Hin Hh Hm.
  rewrite (surviving_afternoon _ _ _ _ _ _ Hg Hn Hin Hh).
  unfold afternoon_window; cbn [fst snd].
  unfold physics, calculus, english, data_management;
    cbn [end_time]. unfold SESSION_DURATION, DATA_MANAGEMENT_DURATION.
  rewrite (add_at_day now (Z.of_nat d) 15 45 17 15 90) by lia.
  rewrite (add_at_day now (Z.of_nat d) 17 15 18 45 90) by lia.
  rewrite (add_at_day now (Z.of_nat d) 18 45 20 15 90) by lia.
  rewrite (add_at_day now (Z.of_nat d) 20 15 21 15 60) by lia.
  rewrite leb_at_day.
  split; [|repeat (split; [reflexivity|]); reflexivity].
  rewrite afternoon_fill_standard
    by (reflexivity || now apply standard_day_true).
  rewrite standard_afternoon_window. reflexivity.
Qed.

(** C3, amended. With no busy event, on a Tuesday the afternoon window
    15:45-21:30 yields exactly four sessions: the three sessions of 90
    minutes for the subjects 0, 1, 2 from 15:45 to 20:15, and the session
    of 60 minutes for subject 3 from 20:15 to 21:15, which ends before
    21:30. *)
Theorem tuesday_afternoon_four_sessions (now today : aware) (d : nat)
        (free_slots : list (list slot)) (daily : list slot) :
  weekday today = 1 ->
  get_free_time now [] = ret free_slots ->
  nth_error free_slots d = Some daily ->
  calls (afternoon_pass today daily)
  = [ mkSessionRequest (at_day now (Z.of_nat d) 15 45)
                       (at_day now (Z.of_nat d) 17 15) "Physics" 11;
      mkSessionRequest (at_day now (Z.of_nat d) 17 15)
                       (at_day now (Z.of_nat d) 18 45)
                       "Calculus and Vectors" 7;
      mkSessionRequest (at_day now (Z.of_nat d) 18 45)
                       (at_day now (Z.of_nat d) 20 15) "English" 8;
      mkSessionRequest (at_day now (Z.of_nat d) 20 15)
                       (at_day now (Z.of_nat d) 21 15) "Data Management" 7 ].
Proof.
  intros Hw Hg Hn.
  rewrite (free_day_no_events _ _ _ _ Hg Hn).
  unfold calls. rewrite afternoon_pass_windows.
  rewrite afternoon_fill_standard
    by (reflexivity || (apply standard_day_true; rewrite Hw; discriminate)).
  now rewrite standard_afternoon_window.
Qed.

(* ------------------------------------------------------------------ *)
(** ** The whole run in closed form *)

Lemma getitem_map_seq {A} (f : nat -> A) (n d : nat) :
  (d < n)%nat -> getitem (map f (seq 0 n)) (Z.of_nat d) = ret (f d).
Proof.
  intros Hd. unfold getitem. rewrite length_map, length_seq.
  destruct (Z.of_nat d <? 0) eqn:E; [apply Z.ltb_lt in E; lia|].
  destruct (Z.of_nat d <? 0) eqn:E1; [apply Z.ltb_lt in E1; lia|].
  destruct (Z.of_nat n <=? Z.of_nat d) eqn:E2; [apply Z.leb_le in E2; lia|].
  cbn [orb]. rewrite Nat2Z.id, nth_error_map, nth_error_seq.
  apply Nat.ltb_lt in Hd. now rewrite Hd.
Qed.

Lemma morning_pass_filter (P : slot -> bool) (now : aware) (i : Z)
      (tr : list SessionRequest) :
  morning_pass (filter P [morning_window now i; afternoon_window now i]) tr
  = (ret tt,
     tr ++ if P (morning_window now i) then morning_sessions now i else []).
Proof.
  unfold morning_window, afternoon_window. cbn [filter].
  destruct (P (at_day now i 4 30, at_day now i 8 0));
    destruct (P (at_day now i 15 45, at_day now i 21 30));
    cbn [morning_pass]; unfold sbind;
    rewrite ?morning_fill_window;
    change (morning_fill (at_day now i 15 45) (at_day now i 21 30))
      with (@sret unit tt);
    unfold sret, ret; rewrite ?app_nil_r; reflexivity.
Qed.

Lemma afternoon_fill_window (today now : aware) (i : Z)
      (tr : list SessionRequest) :
  afternoon_fill today (at_day now i 15 45) (at_day now i 21 30) tr
  = (ret tt,
     tr ++ if standard_day today then four_sessions now i
           else anchored_sessions now i).
Proof.
  destruct (standard_day today) eqn:E.
  - rewrite afternoon_fill_standard by (reflexivity || exact E).
    apply standard_afternoon_window.
  - rewrite afternoon_fill_compressed by (reflexivity || exact E).
    unfold compressed_afternoon. rewrite fill_sessions_from_0.
    rewrite replace_at_day. now rewrite two_sessions_anchored.
Qed.

Lemma afternoon_pass_filter (P : slot -> bool) (today now : aware) (i : Z)
      (tr : list SessionRequest) :
  afternoon_pass today
    (filter P [morning_window now i; afternoon_window now i]) tr
  = (ret tt,
     tr ++ if P (afternoon_window now i)
           then if standard_day today then four_sessions now i
                else anchored_sessions now i
           else []).
Proof.
  unfold morning_window, afternoon_window. cbn [filter].
  destruct (P (at_day now i 4 30, at_day now i 8 0));
    destruct (P (at_day now i 15 45, at_day now i 21 30));
    cbn [afternoon_pass]; unfold sbind;
    change (afternoon_fill today (at_day now i 4 30) (at_day now i 8 0))
      with (@sret unit tt);
    unfold sret at 1; cbv beta iota;
    rewrite ?afternoon_fill_window;
    unfold sret, ret; rewrite ?app_nil_r; reflexivity.
Qed.

(** One iteration of the day loop, on the lists of the calculator. *)
Lemma schedule_day_spec (events : list Event) (now : aware)
      (clock : Z -> aware) (d : nat) (tr : list SessionRequest) :
  (d < 7)%nat ->
  schedule_day
    (map (fun j => filter (free_of events)
                     [morning_window now (Z.of_nat j);
                      afternoon_window now (Z.of_nat j)]) (seq 0 7))
    clock (Z.of_nat d) tr
  = (ret tt, tr ++ day_sessions events now clock d).
Proof.
  intros Hd. unfold schedule_day.
  rewrite (getitem_map_seq _ 7 d Hd).
  unfold sbind at 1, lift, ret. cbv beta iota.
  unfold sbind. rewrite morning_pass_filter. unfold ret.
  rewrite afternoon_pass_filter. unfold day_sessions, today_of, ret.
  now rewrite <- app_assoc.
Qed.

Lemma for_days_spec (events : list Event) (now : aware) (clock : Z -> aware)
      (range : list nat) (tr : list SessionRequest) :
  Forall (fun d => (d < 7)%nat) range ->
  for_days
    (map (fun j => filter (free_of events)
                     [morning_window now (Z.of_nat j);
                      afternoon_window now (Z.of_nat j)]) (seq 0 7))
    clock (map Z.of_nat range) tr
  = (ret tt, tr ++ flat_map (day_sessions events now clock) range).
Proof.
  intros H. revert tr.
  induction H as [|d rest Hd _ IH]; intros tr; cbn [map for_days flat_map].
  - unfold sret, ret. now rewrite app_nil_r.
  - unfold sbind. rewrite (schedule_day_spec _ _ _ _ _ Hd). unfold ret.
    rewrite IH. now rewrite <- app_assoc.
Qed.

(** A run on events whose readings raise nothing. *)
Lemma schedule_spec (reply : list_reply) (now : aware) (clock : Z -> aware)
      (tr : list SessionRequest) :
  first_error (get_events reply) = None ->
  schedule_study_sessions reply now clock tr
  = (ret tt,
     tr ++ flat_map (day_sessions (get_events reply) now clock) (seq 0 7)).
Proof.
  intros He. unfold schedule_study_sessions.
  rewrite get_free_time_spec, He. unfold sbind, lift, ret.
  change [0; 1; 2; 3; 4; 5; 6] with (map Z.of_nat (seq 0 7)).
  apply for_days_spec. repeat constructor.
Qed.

(** A run on events of which a reading raises. *)
Lemma schedule_error (reply : list_reply) (now : aware) (clock : Z -> aware)
      (tr : list SessionRequest) (e : exn) :
  first_error (get_events reply) = Some e ->
  schedule_study_sessions reply now clock tr = (raise e, tr).
Proof.
  intros He. unfold schedule_study_sessions.
  rewrite get_free_time_spec, He. reflexivity.
Qed.

(* ------------------------------------------------------------------ *)
(** ** Exceptions of a run *)

(** Reading an event raises nothing but the [ValueError] of [isoparse]. *)
Lemma busy_interval_error (event : Event) (e : exn) :
  busy_interval event = inl e -> e = ValueError.
Proof.
  unfold busy_interval, parse, bind, ret, raise.
  destruct (skipped event); [discriminate|].
  destruct (stamp (start event)) as [s|]; [|discriminate].
  destruct (stamp (end_ event)) as [t|]; [|discriminate].
  destruct (isoparse s); [|congruence].
  destruct (isoparse t); [discriminate|congruence].
Qed.

Lemma first_error_value (events : list Event) (e : exn) :
  first_error events = Some e -> e = ValueError.
Proof.
  induction events as [|event rest IH]; cbn [first_error]; [discriminate|].
  destruct (busy_interval event) as [e'|] eqn:E; [|exact IH].
  intros [= <-]. exact (busy_interval_error _ _ E).
Qed.

Lemma first_error_in (events : list Event) (event : Event) (e : exn) :
  In event events -> busy_interval event = inl e ->
  first_error events = Some ValueError.
Proof.
  intros Hin Hb.
  destruct (first_error events) as [e'|] eqn:E.
  - now rewrite (first_error_value _ _ E).
  - exfalso. induction events as [|x rest IH]; [destruct Hin|].
    cbn [first_error] in E.
    destruct (busy_interval x) as [e'|] eqn:Ex; [discriminate|].
    destruct Hin as [->|Hin]; [congruence|exact (IH Hin E)].
Qed.

(** A timestamp that [isoparse] rejects, in an event that is not skipped,
    makes the reading of the event raise. *)
Lemma busy_interval_raises (event : Event) (s t : string) :
  skipped event = false ->
  stamp (start event) = Some s -> stamp (end_ event) = Some t ->
  isoparse s = None \/ isoparse t = None ->
  busy_interval event = raise ValueError.
Proof.
  intros Hs Es Et H. unfold busy_interval, parse, bind.
  rewrite Hs, Es, Et.
  destruct (isoparse s); [|reflexivity].
  destruct H as [H|H]; [discriminate|]. now rewrite H.
Qed.

(** X2. An unparseable timestamp aborts the run: [get_free_time] raises the
    [ValueError] of [isoparse], and [schedule_study_sessions] raises it
    before any call of [add_event]. *)
Theorem unparseable_timestamp_aborts (reply : list_reply) (now : aware)
        (clock : Z -> aware) (tr : list SessionRequest) (event : Event)
        (s t : string) :
  In event (get_events reply) ->
  skipped event = false ->
  stamp (start event) = Some s -> stamp (end_ event) = Some t ->
  isoparse s = None \/ isoparse t = None ->
  get_free_time now (get_events reply) = raise ValueError
  /\ schedule_study_sessions reply now clock tr = (raise ValueError, tr).
Proof.
  intros Hin Hs Es Et H.
  pose proof (busy_interval_raises _ _ _ Hs Es Et H) as Hb.
  pose proof (first_error_in _ _ _ Hin Hb) as He.
  split; [|exact (schedule_error _ _ _ _ _ He)].
  rewrite get_free_time_spec. now rewrite He.
Qed.

(** X1. When every timestamp parses, a run returns normally, and the calls of
    [add_event] it makes are, day after day for the 7 days, the sessions
    of [day_sessions]. *)
Theorem schedule_closed_form (reply : list_reply) (now : aware)
        (clock : Z -> aware) (tr : list SessionRequest) :
  Forall timestamps_parse (get_events reply) ->
  schedule_study_sessions reply now clock tr
  = (ret tt,
     tr ++ flat_map (day_sessions (get_events reply) now clock) (seq 0 7)).
Proof.
  intros Hp. apply schedule_spec. now apply first_error_parse.
Qed.


(** X4. When the listing fails with [HttpError], or its reply has no [items],
    the run goes on as for an empty calendar: it fills both windows of
    each of the 7 days. *)
Theorem listing_failure_fills_week (now : aware) (clock : Z -> aware)
        (tr : list SessionRequest) :
  let week :=
    flat_map (fun d =>
                morning_sessions now (Z.of_nat d)
                ++ (if standard_day (today_of clock (Z.of_nat d))
                    then four_sessions now (Z.of_nat d)
                    else anchored_sessions now (Z.of_nat d)))
             (seq 0 7) in
  schedule_study_sessions ListHttpError now clock tr = (ret tt, tr ++ week)
  /\ schedule_study_sessions (ListResult None) now clock tr
     = (ret tt, tr ++ week).
Proof.
  split; rewrite schedule_spec by reflexivity; reflexivity.
Qed.

(* ------------------------------------------------------------------ *)
(** ** The calculator and the list of events *)

Lemma first_error_permutation (events events' : list Event) :
  Permutation events events' ->
  first_error events = None -> first_error events' = None.
Proof.
  induction 1 as [|x l l' _ IH|x y l|l l' l'' _ IH1 _ IH2];
    cbn [first_error]; auto.
  - destruct (busy_interval x); [discriminate|exact IH].
  - destruct (busy_interval x), (busy_interval y); auto; discriminate.
Qed.

Lemma forallb_permutation {A} (f : A -> bool) (l l' : list A) :
  Permutation l l' -> forallb f l = forallb f l'.
Proof.
  induction 1 as [|x l l' _ IH|x y l|l l' l'' _ IH1 _ IH2];
    cbn [forallb]; [reflexivity|now rewrite IH| |congruence].
  now destruct (f x), (f y).
Qed.

(** X5. The result of the calculator does not depend on the order of the
    events. *)
Theorem get_free_time_permutation (now : aware)
        (events events' : list Event) :
  Permutation events events' ->
  get_free_time now events = get_free_time now events'.
Proof.
  intros Hp. rewrite !get_free_time_spec.
  assert (He : first_error events = first_error events').
  { destruct (first_error events) as [e|] eqn:E;
      destruct (first_error events') as [e'|] eqn:E'.
    - now rewrite (first_error_value _ _ E), (first_error_value _ _ E').
    - apply Permutation_sym in Hp.
      pose proof (first_error_permutation _ _ Hp E'). congruence.
    - pose proof (first_error_permutation _ _ Hp E). congruence.
    - reflexivity. }
  rewrite He. destruct (first_error events'); [reflexivity|].
  f_equal. apply map_ext. intros j. apply filter_ext. intros sl.
  unfold free_of. now apply forallb_permutation.
Qed.

(** X6. More events never give more free intervals: if every event of
    [events] is among [events'], each interval returned for a day on
    [events'] is returned for that day on [events]. *)
Theorem more_events_fewer_slots (now : aware) (events events' : list Event)
        (free_slots free_slots' : list (list slot)) (i : nat)
        (daily daily' : list slot) :
  incl events events' ->
  get_free_time now events = ret free_slots ->
  get_free_time now events' = ret free_slots' ->
  nth_error free_slots i = Some daily ->
  nth_error free_slots' i = Some daily' ->
  incl daily' daily.
Proof.
  intros Hi Hg Hg' Hn Hn'.
  destruct (get_free_time_day _ _ _ _ _ Hg Hn) as [_ ->].
  destruct (get_free_time_day _ _ _ _ _ Hg' Hn') as [_ ->].
  intros sl Hin. apply filter_In in Hin. destruct Hin as [Hin Hf].
  apply filter_In. split; [exact Hin|].
  unfold free_of in *. rewrite forallb_forall in *.
  intros event He. apply Hf. now apply Hi.
Qed.

(** X7. A window that no event overlaps survives: if none of the events read
    as busy intervals passes the open-interval test against a window of
    day [i], that window is in the list returned for day [i].  An event
    that ends exactly at the start of the window, or starts exactly at its
    end, does not remove it. *)
Theorem free_window_survives (now : aware) (events : list Event) (i : nat)
        (w : slot) (free_slots : list (list slot)) (daily : list slot) :
  In w (morning_slots (today_at now i) ++ afternoon_slots (today_at now i)) ->
  (forall event s e,
      In event events -> busy_interval event = ret (Some (s, e)) ->
      instant e <= instant (fst w) \/ instant (snd w) <= instant s) ->
  get_free_time now events = ret free_slots ->
  nth_error free_slots i = Some daily ->
  In w daily.
Proof.
  intros Hw Hfree Hg Hn. rewrite windows_today_at in Hw.
  destruct (get_free_time_day _ _ _ _ _ Hg Hn) as [_ ->].
  apply filter_In. split; [exact Hw|].
  unfold free_of. apply forallb_forall. intros event Hin.
  unfold hits.
  destruct (busy_interval event) as [x|[[s e]|]] eqn:Hb;
    [reflexivity| |reflexivity].
  apply negb_true_iff. unfold overlaps, ltb.
  destruct (Hfree event s e Hin Hb) as [H|H].
  - apply andb_false_iff. left. apply Z.ltb_ge. exact H.
  - apply andb_false_iff. right. apply Z.ltb_ge. exact H.
Qed.

(** X8. An all-day event of the day [i] days after [now] (timestamps under
    [date] only, read by [isoparse] as the midnights that begin and end
    that day, and localized to the offset of [now]) empties the list of
    day [i]. *)
Theorem all_day_event_empties_day (now : aware) (events : list Event)
        (event : Event) (ds de : string) (i : nat)
        (free_slots : list (list slot)) (daily : list slot) :
  In event events ->
  dateTime (start event) = None -> date (start event) = Some ds ->
  dateTime (end_ event) = None -> date (end_ event) = Some de ->
  ds <> EmptyString -> de <> EmptyString ->
  isoparse ds
  = Some (mkParsed
            (mkDatetime (ordinal (local now) + Z.of_nat i) 0 0 0 0) None) ->
  isoparse de
  = Some (mkParsed
            (mkDatetime (ordinal (local now) + Z.of_nat i + 1) 0 0 0 0)
            None) ->
  tz_utcoffset (mkDatetime (ordinal (local now) + Z.of_nat i) 0 0 0 0)
  = utcoffset now ->
  tz_utcoffset (mkDatetime (ordinal (local now) + Z.of_nat i + 1) 0 0 0 0)
  = utcoffset now ->
  get_free_time now events = ret free_slots ->
  nth_error free_slots i = Some daily ->
  daily = [].
Proof.
  intros Hin Hs1 Hs2 He1 He2 Hds Hde Ps Pe Ts Te Hg Hn.
  destruct (get_free_time_day _ _ _ _ _ Hg Hn) as [_ ->].
  assert (Hb : busy_interval event
               = ret (Some (at_day now (Z.of_nat i) 0 0,
                            at_day now (Z.of_nat i + 1) 0 0))).
  { unfold busy_interval, skipped, stamp, py_or, parse, bind.
    rewrite Hs1, Hs2, He1, He2. cbn [truthy].
    destruct ds as [|c ds]; [contradiction|].
    destruct de as [|c' de]; [contradiction|].
    cbn [negb orb]. rewrite Ps, Pe. unfold ret. cbv beta iota.
    unfold localize_if_naive; cbn [tzinfo fields]. rewrite Ts, Te.
    unfold at_day. now rewrite Z.add_assoc. }
  assert (Hhit : forall sl,
             In sl [morning_window now (Z.of_nat i);
                    afternoon_window now (Z.of_nat i)] ->
             free_of events sl = false).
  { intros sl Hsl. destruct (free_of events sl) eqn:F; [|reflexivity].
    pose proof (free_of_hits _ _ _ F Hin) as Hh.
    unfold hits in Hh. rewrite Hb in Hh. unfold ret in Hh.
    unfold overlaps, ltb in Hh. apply andb_false_iff in Hh.
    unfold morning_window, afternoon_window in Hsl.
    destruct Hsl as [<-|[<-|[]]]; cbn [fst snd] in Hh;
      rewrite !instant_at_day in Hh;
      destruct Hh as [Hh|Hh]; apply Z.ltb_ge in Hh;
      unfold_units; lia. }
  cbn [filter].
  rewrite (Hhit (morning_window now (Z.of_nat i))) by now left.
  rewrite (Hhit (afternoon_window now (Z.of_nat i))) by (right; now left).
  reflexivity.
Qed.

(* ------------------------------------------------------------------ *)
(** ** What a run requests *)

(** The calls of a run: those of the closed form, or none. *)
Lemma emitted_spec (reply : list_reply) (now : aware) (clock : Z -> aware) :
  emitted reply now clock
  = match first_error (get_events reply) with
    | Some _ => []
    | None => flat_map (day_sessions (get_events reply) now clock) (seq 0 7)
    end.
Proof.
  unfold emitted. destruct (first_error (get_events reply)) as [e|] eqn:E.
  - now rewrite (schedule_error _ _ _ _ _ E).
  - now rewrite (schedule_spec _ _ _ _ E).
Qed.

Lemma length_flat_map_le {A B} (f : A -> list B) (k : nat) (l : list A) :
  (forall x, List.length (f x) <= k)%nat ->
  (List.length (flat_map f l) <= k * List.length l)%nat.
Proof.
  intros H. induction l as [|x l IH]; cbn [flat_map List.length]; [lia|].
  rewrite length_app. specialize (H x). lia.
Qed.

Lemma day_sessions_length (events : list Event) (now : aware)
      (clock : Z -> aware) (d : nat) :
  (List.length (day_sessions events now clock d) <= 6)%nat.
Proof.
  unfold day_sessions. rewrite length_app.
  destruct (free_of events (morning_window now (Z.of_nat d)));
    destruct (free_of events (afternoon_window now (Z.of_nat d)));
    destruct (standard_day (today_of clock (Z.of_nat d)));
    cbn [List.length morning_sessions four_sessions anchored_sessions]; lia.
Qed.

(** X10. A run calls [add_event] at most 42 times: at most 6 times for each of
    the 7 days. *)
Theorem at_most_six_sessions_a_day (reply : list_reply) (now : aware)
        (clock : Z -> aware) :
  (List.length (emitted reply now clock) <= 42)%nat.
Proof.
  rewrite emitted_spec.
  destruct (first_error (get_events reply)); [cbn; lia|].
  apply (length_flat_map_le _ 6 (seq 0 7)). apply day_sessions_length.
Qed.

Lemma in_day_sessions (events : list Event) (now : aware)
      (clock : Z -> aware) (d : nat) (r : SessionRequest) :
  In r (day_sessions events now clock d) ->
  In r (morning_sessions now (Z.of_nat d))
  \/ In r (four_sessions now (Z.of_nat d))
  \/ In r (anchored_sessions now (Z.of_nat d)).
Proof.
  unfold day_sessions. intros H. apply in_app_or in H.
  destruct H as [H|H].
  - destruct (free_of events (morning_window now (Z.of_nat d)));
      [now left|destruct H].
  - destruct (free_of events (afternoon_window now (Z.of_nat d)));
      [|destruct H].
    destruct (standard_day (today_of clock (Z.of_nat d)));
      [right; now left|right; now right].
Qed.

Lemma in_emitted (reply : list_reply) (now : aware) (clock : Z -> aware)
      (r : SessionRequest) :
  In r (emitted reply now clock) ->
  exists d, (d < 7)%nat
    /\ In r (day_sessions (get_events reply) now clock d).
Proof.
  rewrite emitted_spec.
  destruct (first_error (get_events reply)); [intros []|].
  intros H. apply in_flat_map in H. destruct H as (d & Hd & H).
  apply in_seq in Hd. exists d. split; [lia|exact H].
Qed.

(** X11. Every call of [add_event] of a run names a subject of [SUBJECTS] with
    its colour, and lasts 90 minutes, or 60 minutes for Data
    Management. *)
Theorem sessions_are_subjects (reply : list_reply) (now : aware)
        (clock : Z -> aware) (r : SessionRequest) :
  In r (emitted reply now clock) ->
  In (subject r, color_id r) SUBJECTS
  /\ (subject r = "Data Management"%string ->
      instant (end_time r) - instant (start_time r)
      = DATA_MANAGEMENT_DURATION)
  /\ (subject r <> "Data Management"%string ->
      instant (end_time r) - instant (start_time r) = SESSION_DURATION).
Proof.
  intros H. apply in_emitted in H. destruct H as (d & _ & H).
  apply in_day_sessions in H.
  unfold morning_sessions, four_sessions, anchored_sessions in H.
  cbn [In] in H.
  decompose [or] H; clear H; try contradiction; subst r;
    cbn [subject color_id start_time end_time];
    (split; [cbn; tauto|]);
    (split; [intros E; try discriminate E|intros E; try (now elim E)]);
    rewrite !instant_at_day; unfold_units; lia.
Qed.

Lemma StronglySorted_app {A} (R : A -> A -> Prop) (l1 l2 : list A) :
  StronglySorted R l1 -> StronglySorted R l2 ->
  (forall x y, In x l1 -> In y l2 -> R x y) ->
  StronglySorted R (l1 ++ l2).
Proof.
  induction l1 as [|a l1 IH]; cbn [app]; intros H1 H2 H; [exact H2|].
  apply StronglySorted_inv in H1. destruct H1 as [H1 Ha].
  apply SSorted_cons.
  - apply IH; [exact H1|exact H2|]. intros x y Hx. apply H. now right.
  - apply Forall_app. split; [exact Ha|].
    apply Forall_forall. intros y Hy. apply H; [now left|exact Hy].
Qed.

Ltac sorted_list :=
  repeat (apply SSorted_cons || apply SSorted_nil
          || apply Forall_cons || apply Forall_nil);
  unfold before; cbn [start_time end_time];
  rewrite !instant_at_day; unfold_units; lia.

Lemma day_sessions_sorted (events : list Event) (now : aware)
      (clock : Z -> aware) (d : nat) :
  StronglySorted before (day_sessions events now clock d).
Proof.
  unfold day_sessions, morning_sessions, four_sessions, anchored_sessions.
  destruct (free_of events (morning_window now (Z.of_nat d)));
    destruct (free_of events (afternoon_window now (Z.of_nat d)));
    destruct (standard_day (today_of clock (Z.of_nat d)));
    cbn [app]; sorted_list.
Qed.

(** The sessions of day [d] lie between 04:30 and 21:30 of that day. *)
Lemma day_sessions_bounds (events : list Event) (now : aware)
      (clock : Z -> aware) (d : nat) (r : SessionRequest) :
  In r (day_sessions events now clock d) ->
  instant (at_day now (Z.of_nat d) 4 30) <= instant (start_time r)
  /\ instant (end_time r) <= instant (at_day now (Z.of_nat d) 21 30).
Proof.
  intros H. apply in_day_sessions in H.
  unfold morning_sessions, four_sessions, anchored_sessions in H.
  cbn [In] in H.
  decompose [or] H; clear H; try contradiction; subst r;
    cbn [start_time end_time]; rewrite !instant_at_day; unfold_units; lia.
Qed.

Lemma flat_map_day_sessions_sorted (events : list Event) (now : aware)
      (clock : Z -> aware) (n a : nat) :
  StronglySorted before (flat_map (day_sessions events now clock) (seq a n)).
Proof.
  revert a. induction n as [|n IH]; intros a; cbn [seq flat_map].
  - apply SSorted_nil.
  - apply StronglySorted_app;
      [apply day_sessions_sorted|apply IH|].
    intros x y Hx Hy. apply in_flat_map in Hy.
    destruct Hy as (d' & Hd' & Hy). apply in_seq in Hd'.
    apply day_sessions_bounds in Hx, Hy.
    destruct Hx as [_ Hx]. destruct Hy as [Hy _].
    unfold before. rewrite instant_at_day in Hx, Hy.
    unfold_units. lia.
Qed.

(** X12. The calls of [add_event] of a run are in chronological order and do
    not overlap one another: each session ends no later than every later
    one starts. *)
Theorem sessions_in_order (reply : list_reply) (now : aware)
        (clock : Z -> aware) :
  StronglySorted
    (fun r r' => instant (end_time r) <= instant (start_time r'))
    (emitted reply now clock).
Proof.
  rewrite emitted_spec.
  destruct (first_error (get_events reply)); [apply SSorted_nil|].
  apply (flat_map_day_sessions_sorted (get_events reply) now clock 7 0).
Qed.

(** X13. On an interval shorter than 90 minutes but of at least 60, the branch
    of the standard days places no session of 90 minutes, and places the
    session of 60 minutes for subject 3 at the start of the interval. *)
Theorem standard_afternoon_short_interval (start_time end_time : aware)
        (tr : list SessionRequest) :
  instant start_time + DATA_MANAGEMENT_DURATION <= instant end_time ->
  instant end_time < instant start_time + SESSION_DURATION ->
  standard_afternoon start_time end_time tr
  = (ret tt,
     tr ++ [data_management start_time DATA_MANAGEMENT_DURATION]).
Proof.
  intros H60 H90.
  assert (E90 : leb (add start_time SESSION_DURATION) end_time = false)
    by (unfold leb; apply Z.leb_gt; rewrite instant_add; exact H90).
  assert (E60 : leb (add start_time DATA_MANAGEMENT_DURATION) end_time
                = true)
    by (unfold leb; apply Z.leb_le; rewrite instant_add; exact H60).
  unfold standard_afternoon. cbn [standard_sessions].
  rewrite E90. unfold sbind at 1, sret. rewrite E60.
  change (getitem SUBJECTS 3)
    with (@ret (string * Z) ("Data Management"%string, 7)).
  unfold sbind, lift, ret, add_event. reflexivity.
Qed.

(** X9. Events outside the 7 days are ignored: if every event read as a busy
    interval ends by 04:30 of the day of [now], or starts at 21:30 of the
    sixth day after it or later, the calculator returns what it returns
    for no event. *)
Theorem events_outside_week_ignored (now : aware) (events : list Event) :
  Forall timestamps_parse events ->
  (forall event s e,
      In event events -> busy_interval event = ret (Some (s, e)) ->
      instant e <= instant (at_day now 0 4 30)
      \/ instant (at_day now 6 21 30) <= instant s) ->
  get_free_time now events = get_free_time now [].
Proof.
  intros Hp Hout. rewrite !get_free_time_spec.
  rewrite (first_error_parse events Hp). cbn [first_error].
  f_equal. apply map_ext_in. intros j Hj. apply in_seq in Hj.
  assert (Hfree : forall sl,
             In sl [morning_window now (Z.of_nat j);
                    afternoon_window now (Z.of_nat j)] ->
             free_of events sl = true).
  { intros sl Hsl. unfold free_of. apply forallb_forall.
    intros event Hin. unfold hits.
    destruct (busy_interval event) as [x|[[s e]|]] eqn:Hb;
      [reflexivity| |reflexivity].
    apply negb_true_iff. unfold overlaps, ltb. apply andb_false_iff.
    pose proof (Hout event s e Hin Hb) as H.
    rewrite !instant_at_day in H.
    unfold morning_window, afternoon_window in Hsl.
    destruct Hsl as [<-|[<-|[]]]; cbn [fst snd];
      rewrite !instant_at_day;
      (destruct H as [H|H]; [left|right]); apply Z.ltb_ge;
      unfold_units; lia. }
  cbn [filter].
  rewrite (Hfree (morning_window now (Z.of_nat j))) by now left.
  rewrite (Hfree (afternoon_window now (Z.of_nat j))) by (right; now left).
  reflexivity.
Qed.

End Main.

(* ------------------------------------------------------------------ *)
(** ** A sample calendar *)

(** Tuesday 2024-04-23 (ordinal 738999), 10:12:30.000250, at UTC-04:00. *)
Definition sample_now : aware :=
  mkAware (mkDatetime 738999 10 12 30 250) (-14400).

(** The clock time [h:m] of the sample date plus [i] days. *)
Definition sample_at (i h m : Z) : aware :=
  mkAware (mkDatetime (738999 + i) h m 0 0) (-14400).

Definition sample_tz (d : datetime) : Z := -14400.

(** The timestamps of the sample calendar, as [isoparse] reads them. *)
Definition sample_isoparse (text : string) : option parsed :=
  if String.eqb text "2024-04-24T05:00:00-04:00"
  then Some (mkParsed (mkDatetime 739000 5 0 0 0) (Some (-14400)))
  else if String.eqb text "2024-04-24T06:00:00-04:00"
  then Some (mkParsed (mkDatetime 739000 6 0 0 0) (Some (-14400)))
  else if String.eqb text "2024-04-26"
  then Some (mkParsed (mkDatetime 739002 0 0 0 0) None)
  else if String.eqb text "2024-04-27"
  then Some (mkParsed (mkDatetime 739003 0 0 0 0) None)
  else None.

(** A timed event on Wednesday morning, an all-day event on Friday, and an
    event without timestamps. *)
Definition sample_timed : Event :=
  mkEvent (mkEventDateTime (Some "2024-04-24T05:00:00-04:00"%string) None)
          (mkEventDateTime (Some "2024-04-24T06:00:00-04:00"%string) None).

Definition sample_all_day : Event :=
  mkEvent (mkEventDateTime None (Some "2024-04-26"%string))
          (mkEventDateTime None (Some "2024-04-27"%string)).

Definition sample_untimed : Event :=
  mkEvent (mkEventDateTime None None) (mkEventDateTime None None).

Definition sample_events : list Event :=
  [sample_timed; sample_untimed; sample_all_day].

Definition sample_reply : list_reply := ListResult (Some sample_events).

Definition sample_clock (day_index : Z) : aware := sample_now.

(** The list a computation returned, empty if it raised. *)
Definition returned {A} (r : result (list A)) : list A :=
  match r with
  | inr l => l
  | inl _ => []
  end.

Definition sample_free_slots : list (list slot) :=
  returned (get_free_time sample_isoparse sample_tz sample_now sample_events).

Definition sample_free_slots_empty : list (list slot) :=
  returned (get_free_time sample_isoparse sample_tz sample_now []).

Lemma sample_timestamps_parse :
  Forall (timestamps_parse sample_isoparse) sample_events.
Proof.
  unfold sample_events.
  repeat (apply Forall_cons; [|]); [| | |apply Forall_nil];
    intros s e Hs Es Ee; try discriminate Hs;
    vm_compute in Es, Ee; injection Es as <-; injection Ee as <-;
    split; discriminate.
Qed.

(* ------------------------------------------------------------------ *)
(** ** The claims on the sample calendar *)

Lemma get_free_time_shape_witness :
  Forall (timestamps_parse sample_isoparse) sample_events
  /\ exists free_slots,
       get_free_time sample_isoparse sample_tz sample_now sample_events
       = ret free_slots
       /\ List.length free_slots = 7%nat
       /\ forall i daily, nth_error free_slots i = Some daily ->
            (List.length daily <= 2)%nat
            /\ forall sl, In sl daily ->
                 (sl = (at_day sample_now (Z.of_nat i) 4 30,
                        at_day sample_now (Z.of_nat i) 8 0)
                  \/ sl = (at_day sample_now (Z.of_nat i) 15 45,
                           at_day sample_now (Z.of_nat i) 21 30))
                 /\ instant (fst sl) < instant (snd sl).
Proof.
  split; [exact sample_timestamps_parse|].
  exact (get_free_time_shape sample_isoparse sample_tz sample_now
           sample_events sample_timestamps_parse).
Defined.

(** The timed event of Wednesday 05:00-06:00 removes the morning window of
    day 1 whole. *)
Lemma whole_window_blackout_witness :
  ~ In (sample_at 1 4 30, sample_at 1 8 0) (nth 1 sample_free_slots [])
  /\ forall sl, In sl (nth 1 sample_free_slots []) ->
       ~ within sl (sample_at 1 4 30, sample_at 1 8 0).
Proof.
  apply (whole_window_blackout sample_isoparse sample_tz sample_now
           sample_events 1 (sample_at 1 4 30, sample_at 1 8 0) sample_timed
           (sample_at 1 5 0) (sample_at 1 6 0) sample_free_slots).
  - vm_compute. left. reflexivity.
  - vm_compute. left. reflexivity.
  - vm_compute. reflexivity.
  - vm_compute. split; reflexivity.
  - vm_compute. reflexivity.
  - vm_compute. reflexivity.
Defined.

Lemma malformed_event_skipped_witness :
  skipped sample_untimed = true
  /\ get_free_time sample_isoparse sample_tz sample_now
       ([sample_timed] ++ sample_untimed :: [sample_all_day])
     = get_free_time sample_isoparse sample_tz sample_now
         ([sample_timed] ++ [sample_all_day]).
Proof.
  split; [reflexivity|].
  apply (malformed_event_skipped sample_isoparse sample_tz sample_now
           [sample_timed] [sample_all_day] sample_untimed).
  reflexivity.
Defined.

Lemma get_free_time_deterministic_witness :
  get_free_time sample_isoparse sample_tz sample_now sample_events
  = get_free_time sample_isoparse sample_tz (sample_at 0 23 59) sample_events
  /\ forall daily out,
       blackout sample_isoparse sample_tz sample_events daily = ret out ->
       blackout sample_isoparse sample_tz sample_events out = ret out.
Proof.
  apply (get_free_time_deterministic sample_isoparse sample_tz sample_now
           (sample_at 0 23 59) sample_events); reflexivity.
Defined.

(** The first session of the sample run lies in the morning window of day
    0, which no event of the sample calendar overlaps. *)
Lemma sessions_within_free_intervals_witness :
  exists free_slots d daily sl,
    get_free_time sample_isoparse sample_tz sample_now
      (get_events sample_reply) = ret free_slots
    /\ nth_error free_slots d = Some daily
    /\ In (mkSessionRequest (sample_at 0 4 30) (sample_at 0 6 0) "Physics" 11)
          (calls (schedule_day free_slots sample_clock (Z.of_nat d)))
    /\ In sl daily
    /\ instant (fst sl) <= instant (sample_at 0 4 30)
    /\ instant (sample_at 0 6 0) <= instant (snd sl)
    /\ forall event s e,
         In event (get_events sample_reply) ->
         busy_interval sample_isoparse sample_tz event = ret (Some (s, e)) ->
         ~ (instant (fst sl) < instant e /\ instant s < instant (snd sl)).
Proof.
  apply (sessions_within_free_intervals sample_isoparse sample_tz
           sample_reply sample_now sample_clock
           (mkSessionRequest (sample_at 0 4 30) (sample_at 0 6 0)
                             "Physics" 11)).
  vm_compute. left. reflexivity.
Defined.

Lemma morning_rule_witness :
  morning_fill (sample_at 0 4 30) (sample_at 0 8 0) []
  = (ret tt, [] ++ two_sessions (sample_at 0 4 30) (sample_at 0 8 0))
  /\ (List.length (two_sessions (sample_at 0 4 30) (sample_at 0 8 0))
      <= 2)%nat
  /\ forall now d free_slots daily,
       get_free_time sample_isoparse sample_tz now [] = ret free_slots ->
       nth_error free_slots d = Some daily ->
       calls (morning_pass daily)
       = [ mkSessionRequest (at_day now (Z.of_nat d) 4 30)
                            (at_day now (Z.of_nat d) 6 0) "Physics" 11;
           mkSessionRequest (at_day now (Z.of_nat d) 6 0)
                            (at_day now (Z.of_nat d) 7 30)
                            "Calculus and Vectors" 7 ].
Proof.
  apply (morning_rule sample_isoparse sample_tz (sample_at 0 4 30)
           (sample_at 0 8 0) []); reflexivity.
Defined.

(** Thursday 2024-04-25 is day 2 of the sample week. *)
Lemma thursday_friday_rule_witness :
  afternoon_fill (sample_at 2 9 0) (sample_at 2 15 45) (sample_at 2 21 30) []
  = (ret tt,
     [] ++ two_sessions (replace (sample_at 2 15 45) 16 45)
                        (sample_at 2 21 30))
  /\ forall now d free_slots daily,
       get_free_time sample_isoparse sample_tz now [] = ret free_slots ->
       nth_error free_slots d = Some daily ->
       calls (afternoon_pass (sample_at 2 9 0) daily)
       = [ mkSessionRequest (at_day now (Z.of_nat d) 16 45)
                            (at_day now (Z.of_nat d) 18 15) "Physics" 11;
           mkSessionRequest (at_day now (Z.of_nat d) 18 15)
                            (at_day now (Z.of_nat d) 19 45)
                            "Calculus and Vectors" 7 ].
Proof.
  apply (thursday_friday_rule sample_isoparse sample_tz (sample_at 2 9 0)
           (sample_at 2 15 45) (sample_at 2 21 30) []).
  - left. reflexivity.
  - reflexivity.
  - reflexivity.
Defined.

(** The afternoon interval of day 0 (a Tuesday) of the sample calendar. *)
Lemma standard_afternoon_rule_witness :
  afternoon_fill sample_now (sample_at 0 15 45) (sample_at 0 21 30) []
  = (ret tt,
     [] ++ [ physics (sample_at 0 15 45) SESSION_DURATION;
             calculus (sample_at 0 17 15) SESSION_DURATION;
             english (sample_at 0 18 45) SESSION_DURATION;
             data_management (sample_at 0 20 15) DATA_MANAGEMENT_DURATION ])
  /\ end_time (physics (sample_at 0 15 45) SESSION_DURATION)
     = sample_at 0 17 15
  /\ end_time (calculus (sample_at 0 17 15) SESSION_DURATION)
     = sample_at 0 18 45
  /\ end_time (english (sample_at 0 18 45) SESSION_DURATION)
     = sample_at 0 20 15
  /\ end_time (data_management (sample_at 0 20 15) DATA_MANAGEMENT_DURATION)
     = sample_at 0 21 15
  /\ leb (sample_at 0 21 15) (sample_at 0 21 30) = true.
Proof.
  apply (standard_afternoon_rule sample_isoparse sample_tz sample_now
           sample_now sample_events sample_free_slots 0
           (nth 0 sample_free_slots [])
           (sample_at 0 15 45, sample_at 0 21 30) []).
  - vm_compute. discriminate.
  - vm_compute. discriminate.
  - vm_compute. reflexivity.
  - vm_compute. reflexivity.
  - vm_compute. right. left. reflexivity.
  - reflexivity.
  - reflexivity.
Defined.

Lemma tuesday_afternoon_four_sessions_witness :
  calls (afternoon_pass sample_now (nth 0 sample_free_slots_empty []))
  = [ mkSessionRequest (sample_at 0 15 45) (sample_at 0 17 15) "Physics" 11;
      mkSessionRequest (sample_at 0 17 15) (sample_at 0 18 45)
                       "Calculus and Vectors" 7;
      mkSessionRequest (sample_at 0 18 45) (sample_at 0 20 15) "English" 8;
      mkSessionRequest (sample_at 0 20 15) (sample_at 0 21 15)
                       "Data Management" 7 ].
Proof.
  apply (tuesday_afternoon_four_sessions sample_isoparse sample_tz sample_now
           sample_now 0 sample_free_slots_empty).
  - reflexivity.
  - vm_compute. reflexivity.
  - vm_compute. reflexivity.
Defined.

(** With no busy event, on Tuesday 2024-04-23 the afternoon window yields
    four sessions, not three: the three sessions of 90 minutes end at
    20:15, and the session of 60 minutes for subject 3 is placed from
    20:15 to 21:15. *)
Lemma tuesday_afternoon_counterexample :
  weekday sample_now = 1
  /\ get_events (ListResult (Some [])) = []
  /\ get_free_time sample_isoparse sample_tz sample_now []
     = ret sample_free_slots_empty
  /\ nth_error sample_free_slots_empty 0
     = Some [ (sample_at 0 4 30, sample_at 0 8 0);
              (sample_at 0 15 45, sample_at 0 21 30) ]
  /\ calls (afternoon_pass sample_now
              [ (sample_at 0 4 30, sample_at 0 8 0);
                (sample_at 0 15 45, sample_at 0 21 30) ])
     = [ mkSessionRequest (sample_at 0 15 45) (sample_at 0 17 15)
                          "Physics" 11;
         mkSessionRequest (sample_at 0 17 15) (sample_at 0 18 45)
                          "Calculus and Vectors" 7;
         mkSessionRequest (sample_at 0 18 45) (sample_at 0 20 15)
                          "English" 8;
         mkSessionRequest (sample_at 0 20 15) (sample_at 0 21 15)
                          "Data Management" 7 ]
  /\ List.length
       (calls (afternoon_pass sample_now
                 [ (sample_at 0 4 30, sample_at 0 8 0);
                   (sample_at 0 15 45, sample_at 0 21 30) ]))
     <> 3%nat.
Proof.
  vm_compute. repeat split; try reflexivity. discriminate.
Qed.

(* ------------------------------------------------------------------ *)
(** ** Further properties on the sample calendar *)

(** An event whose timestamps [isoparse] rejects. *)
Definition sample_bad : Event :=
  mkEvent (mkEventDateTime (Some "tomorrow"%string) None)
          (mkEventDateTime (Some "2024-04-24T06:00:00-04:00"%string) None).

(** Reads the busy interval of a sample event given by hypothesis [Hb]. *)
Ltac read_sample Hb :=
  vm_compute in Hb; try discriminate Hb; injection Hb as <- <-.

Lemma unparseable_timestamp_aborts_witness :
  get_free_time sample_isoparse sample_tz sample_now
    (get_events (ListResult (Some [sample_timed; sample_bad])))
  = raise ValueError
  /\ schedule_study_sessions sample_isoparse sample_tz
       (ListResult (Some [sample_timed; sample_bad])) sample_now
       sample_clock []
     = (raise ValueError, []).
Proof.
  apply (unparseable_timestamp_aborts sample_isoparse sample_tz
           (ListResult (Some [sample_timed; sample_bad])) sample_now
           sample_clock [] sample_bad "tomorrow"
           "2024-04-24T06:00:00-04:00").
  - right. left. reflexivity.
  - reflexivity.
  - reflexivity.
  - reflexivity.
  - left. reflexivity.
Defined.

Lemma schedule_closed_form_witness :
  schedule_study_sessions sample_isoparse sample_tz sample_reply sample_now
    sample_clock []
  = (ret tt,
     [] ++ flat_map (day_sessions sample_isoparse sample_tz
                       (get_events sample_reply) sample_now sample_clock)
                    (seq 0 7)).
Proof.
  apply (schedule_closed_form sample_isoparse sample_tz sample_reply
           sample_now sample_clock []).
  exact sample_timestamps_parse.
Defined.

Lemma get_free_time_permutation_witness :
  get_free_time sample_isoparse sample_tz sample_now
    [sample_all_day; sample_timed; sample_untimed]
  = get_free_time sample_isoparse sample_tz sample_now
      ([sample_timed; sample_untimed] ++ [sample_all_day]).
Proof.
  apply (get_free_time_permutation sample_isoparse sample_tz sample_now).
  apply Permutation_cons_append.
Defined.

Lemma more_events_fewer_slots_witness :
  incl (nth 1 sample_free_slots [])
       (nth 1 (returned (get_free_time sample_isoparse sample_tz sample_now
                           [sample_all_day])) []).
Proof.
  apply (more_events_fewer_slots sample_isoparse sample_tz sample_now
           [sample_all_day] sample_events
           (returned (get_free_time sample_isoparse sample_tz sample_now
                        [sample_all_day]))
           sample_free_slots 1).
  - intros x [<-|[]]. right. right. left. reflexivity.
  - vm_compute. reflexivity.
  - vm_compute. reflexivity.
  - vm_compute. reflexivity.
  - vm_compute. reflexivity.
Defined.

(** No event of the sample calendar overlaps the morning window of day
    0. *)
Lemma free_window_survives_witness :
  In (sample_at 0 4 30, sample_at 0 8 0) (nth 0 sample_free_slots []).
Proof.
  apply (free_window_survives sample_isoparse sample_tz sample_now
           sample_events 0 (sample_at 0 4 30, sample_at 0 8 0)
           sample_free_slots).
  - vm_compute. left. reflexivity.
  - intros event s e [<-|[<-|[<-|[]]]] Hb; read_sample Hb;
      right; vm_compute; discriminate.
  - vm_compute. reflexivity.
  - vm_compute. reflexivity.
Defined.

(** The all-day event of Friday 2024-04-26 is day 3 of the sample week. *)
Lemma all_day_event_empties_day_witness :
  nth 3 sample_free_slots [(sample_now, sample_now)] = [].
Proof.
  apply (all_day_event_empties_day sample_isoparse sample_tz sample_now
           sample_events sample_all_day "2024-04-26" "2024-04-27" 3
           sample_free_slots).
  - right. right. left. reflexivity.
  - reflexivity.
  - reflexivity.
  - reflexivity.
  - reflexivity.
  - discriminate.
  - discriminate.
  - reflexivity.
  - reflexivity.
  - reflexivity.
  - reflexivity.
  - vm_compute. reflexivity.
  - vm_compute. reflexivity.
Defined.

Lemma sessions_are_subjects_witness :
  In ("Data Management"%string, 7) SUBJECTS
  /\ ("Data Management"%string = "Data Management"%string ->
      instant (sample_at 0 21 15) - instant (sample_at 0 20 15)
      = DATA_MANAGEMENT_DURATION)
  /\ ("Data Management"%string <> "Data Management"%string ->
      instant (sample_at 0 21 15) - instant (sample_at 0 20 15)
      = SESSION_DURATION).
Proof.
  apply (sessions_are_subjects sample_isoparse sample_tz sample_reply
           sample_now sample_clock
           (mkSessionRequest (sample_at 0 20 15) (sample_at 0 21 15)
                             "Data Management" 7)).
  vm_compute. do 5 right. left. reflexivity.
Defined.

(** An interval of 75 minutes. *)
Lemma standard_afternoon_short_interval_witness :
  standard_afternoon (sample_at 0 15 45) (sample_at 0 17 0) []
  = (ret tt,
     [] ++ [data_management (sample_at 0 15 45) DATA_MANAGEMENT_DURATION]).
Proof.
  apply (standard_afternoon_short_interval (sample_at 0 15 45)
           (sample_at 0 17 0) []).
  - vm_compute. discriminate.
  - vm_compute. reflexivity.
Defined.

(** Ten days later, the events of the sample calendar are all past. *)
Lemma events_outside_week_ignored_witness :
  get_free_time sample_isoparse sample_tz (sample_at 10 12 0) sample_events
  = get_free_time sample_isoparse sample_tz (sample_at 10 12 0) [].
Proof.
  apply (events_outside_week_ignored sample_isoparse sample_tz
           (sample_at 10 12 0) sample_events).
  - exact sample_timestamps_parse.
  - intros event s e [<-|[<-|[<-|[]]]] Hb; read_sample Hb;
      left; vm_compute; discriminate.
Defined.
